(** * WareBot dashboard: the client-side state reconciliation layer

    A shallow embedding of the TypeScript sources that keep the dashboard's
    view of robots, shelves and tasks current:

    - [MapContext]         the React context store (tasks / shelves / robots)
    - [ShelvesPage]        the push handlers and the edit form of Shelves.tsx
    - [ShelfDetailsPanel]  the panel with the restore and admin set-storage actions
    - [Api]                [sanitizeDoc] of services/api.ts
    - [WarehouseMap], [RobotsPage]  the telemetry handlers
    - [WebSocket]          services/websocket.ts: singleton socket, callback registry
    - [UseTaskSocket]      the reconnect delay of the useTaskSocket hook
    - [Dashboard]          the statistics of the useDashboardStats hook

    JavaScript numbers are IEEE binary64 values and are modelled by Rocq's
    primitive [float]; plain objects are finite maps from property names to
    values; ES [Map]s keyed by id are finite maps as well (the store is only
    ever read by key or through its values, and its specification declares
    insertion order irrelevant). React's functional state updates
    [setState(prev => next)] are state transformers. *)

From Stdlib Require Import PrimFloat FloatOps FloatAxioms ZArith NArith Lia.
From stdpp Require Import gmap strings list.

Set Default Proof Using "Type".

(* ===================================================================== *)
(** * JavaScript values *)
(* ===================================================================== *)

Module JS.

(** The primitive values that reach the handlers through JSON payloads and
    form state. *)
Inductive JsVal : Type :=
| VUndef
| VNull
| VBool (b : bool)
| VNum (n : float)
| VStr (s : string).

(** The two conversions of the language whose algorithms work on the text
    of a string or the digits of a number (StringToNumber and
    Number::toString of ECMA-262) are taken from the host. *)
Class Host := {
  StringToNumber : string -> float;
  NumberToString : float -> string;
}.

(** [a === b] *)
Definition strict_eq (a b : JsVal) : bool :=
  match a, b with
  | VUndef, VUndef => true
  | VNull, VNull => true
  | VBool p, VBool q => Bool.eqb p q
  | VNum m, VNum n => PrimFloat.eqb m n
  | VStr s, VStr t => String.eqb s t
  | _, _ => false
  end.

(** [v !== undefined] *)
Definition defined (v : JsVal) : bool :=
  match v with VUndef => false | _ => true end.

(** [v === undefined || v === null] *)
Definition nullish (v : JsVal) : bool :=
  match v with VUndef | VNull => true | _ => false end.

(** ToBoolean *)
Definition truthy (v : JsVal) : bool :=
  match v with
  | VUndef | VNull => false
  | VBool b => b
  | VNum n => negb (PrimFloat.eqb n 0%float || PrimFloat.is_nan n)
  | VStr s => negb (String.eqb s "")
  end.

(** [a || b] *)
Definition or_else (a b : JsVal) : JsVal := if truthy a then a else b.

(** [a || b] on strings *)
Definition str_or (a b : string) : string := if String.eqb a "" then b else a.

(** [Object.is(a, b)]: the same value, telling [+0] from [-0] and
    equating [NaN] with itself. *)
Definition same_value (a b : JsVal) : bool :=
  match a, b with
  | VUndef, VUndef => true
  | VNull, VNull => true
  | VBool p, VBool q => Bool.eqb p q
  | VNum m, VNum n => PrimFloat.Leibniz.eqb m n
  | VStr s, VStr t => String.eqb s t
  | _, _ => false
  end.

(** [a ?? b] *)
Definition coalesce (a b : JsVal) : JsVal := if nullish a then b else a.

(** [Number(v)] *)
Definition Number `{Host} (v : JsVal) : float :=
  match v with
  | VUndef => PrimFloat.nan
  | VNull => 0%float
  | VBool true => 1%float
  | VBool false => 0%float
  | VNum n => n
  | VStr s => StringToNumber s
  end.

(** [String(v)] *)
Definition String `{Host} (v : JsVal) : string :=
  match v with
  | VUndef => "undefined"
  | VNull => "null"
  | VBool true => "true"
  | VBool false => "false"
  | VNum n => NumberToString n
  | VStr s => s
  end.

(** A plain object: its own properties. A property may be present with the
    value [undefined], which differs from being absent. *)
Abbreviation JsObj := (gmap string JsVal).

(** [o.k] (and [o[k]]) *)
Definition get (o : JsObj) (k : string) : JsVal := default VUndef (o !! k).

(** [{ ...a, ...b }]: the properties of [b] win. *)
Definition spread (a b : JsObj) : JsObj := b ∪ a.

(** Two more operations on text that are taken from the host: [s.trim()]
    and [s.length] (a count of UTF-16 code units). *)
Class TextHost := {
  trim : string -> string;
  length16 : string -> nat;
}.

End JS.

(* ===================================================================== *)
(** * types/map.ts *)
(* ===================================================================== *)

Module Coordinates.
Record t := mk { x : float; y : float; yaw : option float }.
End Coordinates.

Module Robot.
Inductive Status := IDLE | CHARGING | BUSY | OFFLINE.
Record t := mk {
  id : string;
  x : float;
  y : float;
  status : option Status;
  battery : option float;
  timestamp : option float;
}.
End Robot.

Module ShelfMap.
Inductive Status := IDLE | BUSY.
(** [location_status] is declared as a union of string literals, but
    [setShelfCurrent] stores whatever string it is given ([as any]). *)
Record t := mk {
  id : string;
  warehouse_id : string;
  storage : Coordinates.t;
  current : Coordinates.t;
  location_status : string;
  available : bool;
  status : Status;
}.
End ShelfMap.

Module TaskMapView.
Inductive TaskType := PICKUP_AND_DELIVER | MOVE_SHELF | RETURN_SHELF | REPOSITION.
Record Shelf := mkShelf {
  shelf_id : string;
  shelf_storage : Coordinates.t;
  shelf_current : Coordinates.t;
}.
Record DropZone := mkDropZone { zone_id : string; zone_x : float; zone_y : float }.
Record t := mk {
  task_id : string;
  status : string;
  task_type : TaskType;
  robot : Robot.t;
  shelf : Shelf;
  drop_zone : option DropZone;
  priority : option float;
  created_at : option string;
  updated_at : option string;
}.
End TaskMapView.

(* ===================================================================== *)
(** * context/MapContext.tsx *)
(* ===================================================================== *)

Module MapContext.

(** The three [useState] cells of [MapProvider]. *)
Record MapState := mkState {
  tasks : gmap string TaskMapView.t;
  shelves : gmap string ShelfMap.t;
  robots : gmap string Robot.t;
}.

Definition initial : MapState := mkState ∅ ∅ ∅.

Definition setTasksState (f : gmap string TaskMapView.t -> gmap string TaskMapView.t)
    (st : MapState) : MapState :=
  mkState (f (tasks st)) (shelves st) (robots st).

Definition setShelvesState (f : gmap string ShelfMap.t -> gmap string ShelfMap.t)
    (st : MapState) : MapState :=
  mkState (tasks st) (f (shelves st)) (robots st).

Definition setRobotsState (f : gmap string Robot.t -> gmap string Robot.t)
    (st : MapState) : MapState :=
  mkState (tasks st) (shelves st) (f (robots st)).

(* ---- tasks ---- *)

Definition setTask (task : TaskMapView.t) : MapState -> MapState :=
  setTasksState (fun prev => <[TaskMapView.task_id task := task]> prev).

Definition removeTask (taskId : string) : MapState -> MapState :=
  setTasksState (fun prev => delete taskId prev).

Definition updateTaskStatus (taskId : string) (status : string) : MapState -> MapState :=
  setTasksState (fun prev =>
    match prev !! taskId with
    | None => prev
    | Some task =>
        <[taskId := TaskMapView.mk
                      (TaskMapView.task_id task) status (TaskMapView.task_type task)
                      (TaskMapView.robot task) (TaskMapView.shelf task)
                      (TaskMapView.drop_zone task) (TaskMapView.priority task)
                      (TaskMapView.created_at task) (TaskMapView.updated_at task)]> prev
    end).

Definition getTask (taskId : string) (st : MapState) : option TaskMapView.t :=
  tasks st !! taskId.

(* ---- shelves ---- *)

Definition setShelf (shelf : ShelfMap.t) : MapState -> MapState :=
  setShelvesState (fun prev => <[ShelfMap.id shelf := shelf]> prev).

Definition removeShelf (shelfId : string) : MapState -> MapState :=
  setShelvesState (fun prev => delete shelfId prev).

(** Update shelf's current location; the record is rebuilt from the old
    one with [current] and [location_status] replaced. *)
Definition setShelfCurrent (shelfId : string) (x y : float) (locationStatus : string)
    : MapState -> MapState :=
  setShelvesState (fun prev =>
    match prev !! shelfId with
    | None => prev
    | Some shelf =>
        <[shelfId := ShelfMap.mk
                       (ShelfMap.id shelf) (ShelfMap.warehouse_id shelf)
                       (ShelfMap.storage shelf)
                       (Coordinates.mk x y (Coordinates.yaw (ShelfMap.current shelf)))
                       locationStatus
                       (ShelfMap.available shelf) (ShelfMap.status shelf)]> prev
    end).

Definition markShelfFixed (shelfId : string) : MapState -> MapState :=
  setShelvesState (fun prev =>
    match prev !! shelfId with
    | None => prev
    | Some shelf =>
        <[shelfId := ShelfMap.mk
                       (ShelfMap.id shelf) (ShelfMap.warehouse_id shelf)
                       (ShelfMap.storage shelf) (ShelfMap.current shelf)
                       (ShelfMap.location_status shelf)
                       (ShelfMap.available shelf) ShelfMap.IDLE]> prev
    end).

Definition getShelf (shelfId : string) (st : MapState) : option ShelfMap.t :=
  shelves st !! shelfId.

(* ---- robots ---- *)

Definition setRobot (robot : Robot.t) : MapState -> MapState :=
  setRobotsState (fun prev => <[Robot.id robot := robot]> prev).

Definition removeRobot (robotId : string) : MapState -> MapState :=
  setRobotsState (fun prev => delete robotId prev).

Definition setRobotPosition (robotId : string) (x y : float) : MapState -> MapState :=
  setRobotsState (fun prev =>
    match prev !! robotId with
    | None => prev
    | Some robot =>
        <[robotId := Robot.mk (Robot.id robot) x y (Robot.status robot)
                              (Robot.battery robot) (Robot.timestamp robot)]> prev
    end).

Definition getRobot (robotId : string) (st : MapState) : option Robot.t :=
  robots st !! robotId.

(* ---- bulk operations ---- *)

(** [const map = new Map(); xs.forEach(x => map.set(key x, x))] *)
Definition fromArray {A} (key : A -> string) (xs : list A) : gmap string A :=
  foldl (fun map x => <[key x := x]> map) ∅ xs.

Definition setTasks (newTasks : list TaskMapView.t) : MapState -> MapState :=
  setTasksState (fun _ => fromArray TaskMapView.task_id newTasks).

Definition setShelves (newShelves : list ShelfMap.t) : MapState -> MapState :=
  setShelvesState (fun _ => fromArray ShelfMap.id newShelves).

Definition setRobots (newRobots : list Robot.t) : MapState -> MapState :=
  setRobotsState (fun _ => fromArray Robot.id newRobots).

Definition clear (_ : MapState) : MapState := mkState ∅ ∅ ∅.

(** The store operations that a telemetry, poll or push source applies to
    records that already exist (patches), as opposed to the operations
    that install a whole record ([setShelf], [setShelves], ...). *)
Inductive Patch :=
| PSetShelfCurrent (shelfId : string) (x y : float) (locationStatus : string)
| PMarkShelfFixed (shelfId : string)
| PSetRobotPosition (robotId : string) (x y : float)
| PUpdateTaskStatus (taskId : string) (status : string).

Definition applyPatch (p : Patch) : MapState -> MapState :=
  match p with
  | PSetShelfCurrent i x y ls => setShelfCurrent i x y ls
  | PMarkShelfFixed i => markShelfFixed i
  | PSetRobotPosition i x y => setRobotPosition i x y
  | PUpdateTaskStatus i s => updateTaskStatus i s
  end.

Definition applyPatches (ps : list Patch) (st : MapState) : MapState :=
  foldl (fun s p => applyPatch p s) st ps.

Definition storageOf (shelfId : string) (st : MapState) : option Coordinates.t :=
  ShelfMap.storage <$> shelves st !! shelfId.

(** The record a patch is addressed to is in the store. *)
Definition addressed (p : Patch) (st : MapState) : Prop :=
  match p with
  | PSetShelfCurrent i _ _ _ | PMarkShelfFixed i => is_Some (shelves st !! i)
  | PSetRobotPosition i _ _ => is_Some (robots st !! i)
  | PUpdateTaskStatus i _ => is_Some (tasks st !! i)
  end.

(** The shape the patch operations share: [prev.get(id)], [prev] itself
    when there is no record, else a copy with the record replaced. *)
Definition patchAt {A} (f : A -> A) (i : string) (m : gmap string A) : gmap string A :=
  match m !! i with
  | Some v => <[i := f v]> m
  | None => m
  end.

(** The collection and the id a patch is addressed to. *)
Inductive Kind := KShelf | KRobot | KTask.

Definition target (p : Patch) : Kind * string :=
  match p with
  | PSetShelfCurrent i _ _ _ | PMarkShelfFixed i => (KShelf, i)
  | PSetRobotPosition i _ _ => (KRobot, i)
  | PUpdateTaskStatus i _ => (KTask, i)
  end.

End MapContext.

(* ===================================================================== *)
(** * User interaction and REST traffic of the admin flows *)
(* ===================================================================== *)

Module Flow.

(** What a UI handler does towards the user and the backend, in order. *)
Inductive Event :=
| Confirm (message : string) (answer : bool)
    (* [window.confirm(message)] was shown and returned [answer] *)
| PutShelfStorage (shelfId : string) (storage_x storage_y storage_yaw : float)
    (* [PUT /shelves/:id/storage] *)
| PostShelfRestore (shelfId : string).
    (* [POST /shelves/:id/restore] *)

Definition isStorageRequest (e : Event) : bool :=
  match e with PutShelfStorage _ _ _ _ => true | _ => false end.

Definition isConfirmation (e : Event) : bool :=
  match e with Confirm _ true => true | _ => false end.

(** Every storage request of the trace comes after a confirmation that
    the user answered with OK. *)
Fixpoint gated (confirmed : bool) (trace : list Event) : bool :=
  match trace with
  | [] => true
  | e :: rest =>
      (if isStorageRequest e then confirmed else true)
      && gated (confirmed || isConfirmation e) rest
  end.

(** The answer of the backend to one request, as [fetch] reports it. *)
Inductive Response (A : Type) :=
| Rejected (message : string)                 (* [fetch] or [res.json()] rejects *)
| Status (code : Z) (statusText : string) (error : string)
    (* [!res.ok]; [error] is the [error] property of the decoded body,
       empty when there is none *)
| Ok (body : A).                              (* [res.ok], body decoded *)
Arguments Rejected {A} _.
Arguments Status {A} _ _ _.
Arguments Ok {A} _.

End Flow.

(* ===================================================================== *)
(** * api/mapApi.ts *)
(* ===================================================================== *)

Module MapApi.
Import Flow.

(** [Promise<A>] settled: the value, or the message of the thrown [Error]. *)
Inductive Settled (A : Type) :=
| Fulfilled (a : A)
| Failed (message : string).
Arguments Fulfilled {A} _.
Arguments Failed {A} _.

Definition setShelfStorage (res : Response ShelfMap.t) : Settled ShelfMap.t :=
  match res with
  | Rejected m => Failed m
  | Status code statusText _ =>
      if (code =? 403)%Z then Failed "Forbidden: Admin privileges required"
      else Failed ("Failed to set shelf storage: " ++ statusText)
  | Ok body => Fulfilled body
  end.

Definition restoreShelfToStorage (res : Response ShelfMap.t) : Settled ShelfMap.t :=
  match res with
  | Rejected m => Failed m
  | Status _ statusText _ => Failed ("Failed to restore shelf: " ++ statusText)
  | Ok body => Fulfilled body
  end.

End MapApi.

(* ===================================================================== *)
(** * components/ShelfDetailsPanel.tsx *)
(* ===================================================================== *)

Module ShelfDetailsPanel.
Import Flow MapApi.

Record StorageCoords := mkCoords {
  storage_x : float;
  storage_y : float;
  storage_yaw : float;
}.

(** The [useState] cells of the panel. *)
Record Panel := mkPanel {
  isRestoring : bool;
  showStorageForm : bool;
  storageCoords : StorageCoords;
  error : option string;
  success : option string;
}.

(** [n || 0] on numbers *)
Definition num_or (n d : float) : float :=
  if (PrimFloat.eqb n 0%float || PrimFloat.is_nan n)%bool then d else n.

Definition initialPanel (shelf : ShelfMap.t) : Panel :=
  mkPanel false false
    (mkCoords (Coordinates.x (ShelfMap.storage shelf))
              (Coordinates.y (ShelfMap.storage shelf))
              (match Coordinates.yaw (ShelfMap.storage shelf) with
               | Some w => num_or w 0%float
               | None => 0%float
               end))
    None None.

(** [shelf.current.x !== shelf.storage.x || shelf.current.y !== shelf.storage.y] *)
Definition isDifferent (shelf : ShelfMap.t) : bool :=
  negb (PrimFloat.eqb (Coordinates.x (ShelfMap.current shelf))
                      (Coordinates.x (ShelfMap.storage shelf)))
  || negb (PrimFloat.eqb (Coordinates.y (ShelfMap.current shelf))
                         (Coordinates.y (ShelfMap.storage shelf))).

(** The derived fact the panel works with. *)
Definition isAtStorage (shelf : ShelfMap.t) : bool := negb (isDifferent shelf).

(** The action row is rendered while the storage form is hidden, and
    the Restore button inside it only for a displaced shelf. *)
Definition restoreButtonRendered (p : Panel) (shelf : ShelfMap.t) : bool :=
  negb (showStorageForm p) && isDifferent shelf.

Definition confirmText : string :=
  "This will permanently set the shelf storage location. This action cannot be undone. Are you sure?".

(** [handleSetStorage], run against the user's answer to the
    confirmation dialog and the backend's answer to the request (which is
    consulted only if the request is sent). *)
Definition handleSetStorage (shelf : ShelfMap.t) (answer : bool)
    (res : Response ShelfMap.t) (p : Panel) (st : MapContext.MapState)
    : Panel * MapContext.MapState * list Event :=
  let p1 := mkPanel (isRestoring p) (showStorageForm p) (storageCoords p) None None in
  if negb answer then (p1, st, [Confirm confirmText false])
  else
    let c := storageCoords p in
    let trace := [Confirm confirmText true;
                  PutShelfStorage (ShelfMap.id shelf)
                    (storage_x c) (storage_y c) (storage_yaw c)] in
    match MapApi.setShelfStorage res with
    | Fulfilled updated =>
        (mkPanel (isRestoring p1) false (storageCoords p1) None
                 (Some "Shelf storage location updated"),
         MapContext.setShelf updated st, trace)
    | Failed message =>
        (mkPanel (isRestoring p1) (showStorageForm p1) (storageCoords p1)
                 (Some (JS.str_or message "Failed to set storage location")) None,
         st, trace)
    end.

Definition handleRestore (shelf : ShelfMap.t) (res : Response ShelfMap.t)
    (p : Panel) (st : MapContext.MapState)
    : Panel * MapContext.MapState * list Event :=
  if negb (isDifferent shelf) then
    (mkPanel (isRestoring p) (showStorageForm p) (storageCoords p) (error p)
             (Some "Shelf is already at storage location"), st, [])
  else
    let trace := [PostShelfRestore (ShelfMap.id shelf)] in
    match MapApi.restoreShelfToStorage res with
    | Fulfilled updated =>
        (mkPanel false (showStorageForm p) (storageCoords p) None
                 (Some "Shelf restored to storage location"),
         MapContext.setShelf updated st, trace)
    | Failed message =>
        (mkPanel false (showStorageForm p) (storageCoords p)
                 (Some (JS.str_or message "Failed to restore shelf")) None,
         st, trace)
    end.

End ShelfDetailsPanel.

(* ===================================================================== *)
(** * services/api.ts *)
(* ===================================================================== *)

Module Api.
Import JS Flow MapApi.

(** What [sanitizeDoc] may be handed: a primitive, or an object. *)
Inductive Doc :=
| DPrim (v : JsVal)
| DObj (o : JsObj).

Definition numericKeys : list string :=
  ["x"; "y"; "yaw"; "current_x"; "current_y"; "current_yaw";
   "target_x"; "target_y"; "priority";
   "storage_x"; "storage_y"; "storage_yaw"].

(** One round of the [for (const k of numericKeys)] loop. *)
Definition coerceKey `{Host} (out : JsObj) (k : string) : JsObj :=
  if negb (nullish (get out k)) then
    let n := Number (get out k) in
    if negb (PrimFloat.is_nan n) then <[k := VNum n]> out else out
  else out.

Definition renameId `{Host} (out : JsObj) : JsObj :=
  if truthy (get out "_id")
  then delete "_id" (<["id" := VStr (String (get out "_id"))]> out)
  else out.

Definition sanitizeDoc `{Host} (doc : Doc) : Doc :=
  match doc with
  | DPrim v => DPrim v
  | DObj o => DObj (foldl coerceKey (renameId o) numericKeys)
  end.

(** [shelves.setStorageLocation]: the argument check, then the request
    (the trace) and the outcome for the caller. *)
Definition setStorageLocation (id : string) (sx sy : float) (syaw : option float)
    (res : Response JsObj) : Settled JsObj * list Event :=
  if PrimFloat.is_nan sx then
    (Failed "storage_x is required and must be a valid number", [])
  else if PrimFloat.is_nan sy then
    (Failed "storage_y is required and must be a valid number", [])
  else
    let trace := [PutShelfStorage id sx sy (default 0%float syaw)] in
    match res with
    | Rejected m => (Failed m, trace)
    | Status _ _ error => (Failed (str_or error "Failed to set storage location"), trace)
    | Ok body => (Fulfilled body, trace)
    end.

(** A key of the object is settled: if its value converts to a number, it
    is that number already. *)
Definition settled `{Host} (m : JsObj) (k : string) : Prop :=
  negb (nullish (get m k)) && negb (PrimFloat.is_nan (Number (get m k))) = true ->
  m !! k = Some (VNum (Number (get m k))).

(** [sanitizeDocs]: what is not an array is returned as it is. *)
Inductive Docs :=
| DNotArray (d : Doc)
| DArray (docs : list Doc).

Definition sanitizeDocs `{Host} (docs : Docs) : Docs :=
  match docs with
  | DNotArray d => DNotArray d
  | DArray l => DArray (map sanitizeDoc l)
  end.

(** The module variable [token] and the browser's [localStorage]. *)
Record Session := mkSession {
  token : option string;
  localStorage : gmap string string;
}.

(** [let token = localStorage.getItem('token')] at module load. *)
Definition loadSession (storage : gmap string string) : Session :=
  mkSession (storage !! "token") storage.

Definition setToken (newToken : option string) (s : Session) : Session :=
  mkSession newToken
    (match newToken with
     | Some t => if negb (String.eqb t "") then <["token" := t]> (localStorage s)
                 else delete "token" (localStorage s)
     | None => delete "token" (localStorage s)
     end).

(** [token || localStorage.getItem('token')] *)
Definition getToken (s : Session) : option string :=
  match token s with
  | Some t => if negb (String.eqb t "") then Some t else localStorage s !! "token"
  | None => localStorage s !! "token"
  end.

Definition getHeaders (s : Session) : gmap string string :=
  let headers : gmap string string := {["Content-Type" := "application/json"]} in
  match getToken s with
  | Some currentToken =>
      if negb (String.eqb currentToken "")
      then <["Authorization" := ("Bearer " ++ currentToken)%string]> headers
      else headers
  | None => headers
  end.

(** [auth.logout] *)
Definition logout (s : Session) : Session := setToken None s.

End Api.

(* ===================================================================== *)
(** * pages/Shelves.tsx *)
(* ===================================================================== *)

Module ShelvesPage.
Import JS Flow MapApi.

Record PageState := mkPage {
  shelfList : list JsObj;
  selectedShelf : option JsObj;
}.

(** [s.id === data.id] *)
Definition sameId (s data : JsObj) : bool := strict_eq (get s "id") (get data "id").

(** [socket.on('shelf_update', ...)]: [{ ...s, ...data }] on the match. *)
Definition on_shelf_update (data : JsObj) (st : PageState) : PageState :=
  mkPage (map (fun s => if sameId s data then spread s data else s) (shelfList st))
         (selectedShelf st).

(** [{ ...s, current_x: data.current_x, current_y: ..., current_yaw: ... }] *)
Definition withCurrent (data s : JsObj) : JsObj :=
  <["current_yaw" := get data "current_yaw"]>
    (<["current_y" := get data "current_y"]>
       (<["current_x" := get data "current_x"]> s)).

(** [socket.on('shelf_location_update', ...)]. The effect that installs
    the handler is re-run whenever the id of the selected shelf changes,
    so the handler sees the selection of the state it updates. *)
Definition on_shelf_location_update (data : JsObj) (st : PageState) : PageState :=
  mkPage (map (fun s => if sameId s data then withCurrent data s else s) (shelfList st))
         (match selectedShelf st with
          | Some prev => if sameId prev data then Some (withCurrent data prev) else Some prev
          | None => None
          end).

(** [socket.on('shelf_deleted', ...)] *)
Definition on_shelf_deleted (data : JsObj) (st : PageState) : PageState :=
  mkPage (filter (fun s => sameId s data = false) (shelfList st)) (selectedShelf st).

(** The push events that merge into existing shelves. *)
Inductive Push :=
| shelf_update (data : JsObj)
| shelf_location_update (data : JsObj).

Definition onPush (e : Push) : PageState -> PageState :=
  match e with
  | shelf_update data => on_shelf_update data
  | shelf_location_update data => on_shelf_location_update data
  end.

Definition onPushes (es : list Push) (st : PageState) : PageState :=
  foldl (fun s e => onPush e s) st es.

(** The storage triple of a shelf of the list. *)
Definition storageOf (s : JsObj) : JsVal * JsVal * JsVal :=
  (get s "storage_x", get s "storage_y", get s "storage_yaw").

Definition storageKeys : list string := ["storage_x"; "storage_y"; "storage_yaw"].

(** The payload of the event has none of the storage properties. *)
Definition carriesNoStorage (e : Push) : Prop :=
  match e with
  | shelf_update data => Forall (fun k => data !! k = None) storageKeys
  | shelf_location_update _ => True
  end.

(** The storage fields of the edit form. *)
Record FormData := mkForm {
  storage_x : JsVal;
  storage_y : JsVal;
  storage_yaw : JsVal;
}.

(** [n || 0.0] on numbers *)
Definition num_or (n d : float) : float :=
  if (PrimFloat.eqb n 0%float || PrimFloat.is_nan n)%bool then d else n.

Definition storageLocChanged (formData : FormData) (editingShelf : JsObj) : bool :=
  negb (strict_eq (storage_x formData) (get editingShelf "storage_x"))
  || negb (strict_eq (storage_y formData) (get editingShelf "storage_y"))
  || negb (strict_eq (storage_yaw formData) (get editingShelf "storage_yaw")).

(** Step 3 of [handleSubmit] for an edited shelf: the storage location
    update, with the request it sends and what the caller gets back. *)
Definition handleSubmit_storage `{Host} (formData : FormData)
    (editingShelf : JsObj) (res : Response JsObj) : option (Settled JsObj) * list Event :=
  if storageLocChanged formData editingShelf
     && defined (storage_x formData) && defined (storage_y formData)
  then
    let r := Api.setStorageLocation
               (String (get editingShelf "id"))
               (Number (storage_x formData))
               (Number (storage_y formData))
               (Some (num_or (Number (storage_yaw formData)) 0%float))
               res in
    (Some (fst r), snd r)
  else (None, []).

(** The edit form as a whole; [storage] holds its storage fields. *)
Record EditForm := mkEditForm {
  warehouse_id : string;
  current_x : JsVal;
  current_y : JsVal;
  current_yaw : JsVal;
  level : JsVal;
  available : JsVal;
  status : string;
  storage : FormData;
}.

Definition validStatuses : list string := ["IDLE"; "BUSY"; "ERROR"; "OFFLINE"].

(** [validateForm]: the message to show, or [None] for [null]. *)
Definition validateForm `{Host} `{TextHost} (formData : EditForm) : option string :=
  if String.eqb (warehouse_id formData) "" || String.eqb (trim (warehouse_id formData)) "" then
    Some "Warehouse ID is required"
  else if Nat.ltb 100 (length16 (warehouse_id formData)) then
    Some "Warehouse ID must be 100 characters or less"
  else if PrimFloat.is_nan (Number (current_x formData)) then
    Some "Current X must be a valid number"
  else if PrimFloat.is_nan (Number (current_y formData)) then
    Some "Current Y must be a valid number"
  else if PrimFloat.is_nan (Number (current_yaw formData)) then
    Some "Current Yaw must be a valid number"
  else if PrimFloat.is_nan (Number (level formData))
          || PrimFloat.ltb (Number (level formData)) 0%float then
    Some "Level must be a non-negative number"
  else if negb (existsb (String.eqb (status formData)) validStatuses) then
    Some "Status must be one of: IDLE, BUSY, ERROR, OFFLINE"
  else
    let hasStorageX := defined (storage_x (storage formData)) in
    let hasStorageY := defined (storage_y (storage formData)) in
    if hasStorageX && negb hasStorageY then
      Some "If Storage X is provided, Storage Y must also be provided"
    else if negb hasStorageX && hasStorageY then
      Some "If Storage Y is provided, Storage X must also be provided"
    else if hasStorageX && PrimFloat.is_nan (Number (storage_x (storage formData))) then
      Some "Storage X must be a valid number"
    else if hasStorageY && PrimFloat.is_nan (Number (storage_y (storage formData))) then
      Some "Storage Y must be a valid number"
    else None.

End ShelvesPage.

(* ===================================================================== *)
(** * pages/WarehouseMap.tsx: the telemetry subscription *)
(* ===================================================================== *)

Module WarehouseMap.
Import JS.

(** [ExtendedMapData]: the entity arrays, and every other property. *)
Record MapData := mkMapData {
  robots : option (list JsObj);
  shelves : option (list JsObj);
  tasks : option (list JsObj);
  rest : JsObj;
}.

(** [data.v !== undefined ? Number(data.v) : r.v] *)
Definition numberOrKeep `{Host} (data r : JsObj) (k : string) : JsVal :=
  if defined (get data k) then VNum (Number (get data k)) else get r k.

Definition matches (robotId : JsVal) (r : JsObj) : bool :=
  strict_eq (get r "id") robotId || strict_eq (get r "robot_id") robotId.

Definition telemetryPatch `{Host} (data : JsObj) (x y yaw : JsVal) (r : JsObj) : JsObj :=
  <["temperature" := numberOrKeep data r "temperature"]>
  (<["battery_level" := numberOrKeep data r "battery_level"]>
  (<["ram_usage" := numberOrKeep data r "ram_usage"]>
  (<["cpu_usage" := numberOrKeep data r "cpu_usage"]>
  (<["status" := coalesce (get data "status") (get r "status")]>
  (<["current_yaw" := VNum (Number yaw)]>
  (<["current_y" := VNum (Number y)]>
  (<["current_x" := VNum (Number x)]>
  (<["yaw" := VNum (Number yaw)]>
  (<["y" := VNum (Number y)]>
  (<["x" := VNum (Number x)]> r)))))))))).

(** The callback given to [onTelemetry], as the update of [mapData]. *)
Definition onTelemetry `{Host} (data : JsObj) (prev : option MapData) : option MapData :=
  let robotId := or_else (or_else (get data "robot_id") (get data "robot")) (get data "id") in
  let x := if defined (get data "x") then get data "x" else get data "current_x" in
  let y := if defined (get data "y") then get data "y" else get data "current_y" in
  let yaw := if defined (get data "yaw") then get data "yaw"
             else coalesce (get data "current_yaw") (VNum 0%float) in
  if truthy robotId && defined x && defined y then
    match prev with
    | None => None
    | Some md =>
        match robots md with
        | None => prev
        | Some rs =>
            if existsb (matches robotId) rs then
              Some (mkMapData
                      (Some (map (fun r => if matches robotId r
                                           then telemetryPatch data x y yaw r else r) rs))
                      (shelves md) (tasks md) (rest md))
            else prev
        end
    end
  else prev.

(** [data.a !== undefined ? data.a
      : (data.b !== undefined ? data.b : r.k)] *)
Definition aliasOrKeep (data r : JsObj) (a b k : string) : JsVal :=
  if defined (get data a) then get data a
  else if defined (get data b) then get data b
  else get r k.

(** The callback given to [onRobotUpdate] (the fallback source). *)
Definition onRobotUpdate `{Host} (data : JsObj) (prev : option MapData) : option MapData :=
  match prev with
  | None => None
  | Some md =>
      match robots md with
      | None => prev
      | Some rs =>
          Some (mkMapData
                  (Some (map (fun r =>
                     if strict_eq (get r "id") (get data "robot_id")
                        || strict_eq (get r "robot_id") (get data "robot_id")
                        || strict_eq (get r "id") (get data "id")
                     then
                       <["temperature" := numberOrKeep data r "temperature"]>
                       (<["battery_level" := numberOrKeep data r "battery_level"]>
                       (<["ram_usage" := numberOrKeep data r "ram_usage"]>
                       (<["cpu_usage" := numberOrKeep data r "cpu_usage"]>
                       (<["status" := coalesce (get data "status") (get r "status")]>
                       (<["yaw" := aliasOrKeep data r "yaw" "current_yaw" "yaw"]>
                       (<["y" := aliasOrKeep data r "y" "current_y" "y"]>
                       (<["x" := aliasOrKeep data r "x" "current_x" "x"]> r)))))))
                     else r) rs))
                  (shelves md) (tasks md) (rest md))
      end
  end.

Definition shelfPatch (data s : JsObj) : JsObj :=
  <["current_yaw" := aliasOrKeep data s "yaw" "current_yaw" "current_yaw"]>
  (<["current_y" := aliasOrKeep data s "y" "current_y" "current_y"]>
  (<["current_x" := aliasOrKeep data s "x" "current_x" "current_x"]>
  (<["y" := aliasOrKeep data s "y" "current_y" "y"]>
  (<["x" := aliasOrKeep data s "x" "current_x" "x"]> s)))).

(** The callback given to [onShelfUpdate]. *)
Definition onShelfUpdate (data : JsObj) (prev : option MapData) : option MapData :=
  match prev with
  | None => None
  | Some md =>
      match shelves md with
      | None => prev
      | Some ss =>
          Some (mkMapData (robots md)
                  (Some (map (fun s => if strict_eq (get s "id") (get data "shelf_id")
                                       then shelfPatch data s else s) ss))
                  (tasks md) (rest md))
      end
  end.

(** [{ ...old, x: r.x !== undefined ? r.x : r.current_x, y: ..., yaw: ... }] *)
Definition polledPosition (r old : JsObj) : JsObj :=
  <["yaw" := if defined (get r "yaw") then get r "yaw" else get r "current_yaw"]>
  (<["y" := if defined (get r "y") then get r "y" else get r "current_y"]>
  (<["x" := if defined (get r "x") then get r "x" else get r "current_x"]> old)).

(** The mapping of [loadInitialData] (and of [loadRobots]): the position
    aliases of a record, filled from the record itself. *)
Definition withAliases (r : JsObj) : JsObj := polledPosition r r.

(** [olds?.find(o => o.id === r.id)] *)
Definition findById (olds : option (list JsObj)) (r : JsObj) : option JsObj :=
  match olds with
  | Some l => List.find (fun o => strict_eq (get o "id") (get r "id")) l
  | None => None
  end.

Definition refreshOne (olds : option (list JsObj)) (r : JsObj) : JsObj :=
  match findById olds r with
  | Some old => polledPosition r old
  | None => r
  end.

(** The update of [mapData] in the 100 ms position poll; an answer that
    is not an array ([None]) counts as the empty array. *)
Definition refreshPositions (robotsData shelvesData : option (list JsObj))
    (prev : option MapData) : option MapData :=
  match prev with
  | None => None
  | Some md =>
      Some (mkMapData
              (Some (map (refreshOne (robots md)) (default [] robotsData)))
              (Some (map (refreshOne (shelves md)) (default [] shelvesData)))
              (tasks md) (rest md))
  end.

(** The update of [mapData] in the 200 ms task poll; an answer that is
    not an array leaves the state alone. *)
Definition refreshTaskStatus (tasksData : option (list JsObj))
    (prev : option MapData) : option MapData :=
  match tasksData with
  | None => prev
  | Some ts =>
      match prev with
      | None => None
      | Some md =>
          match tasks md with
          | None => prev
          | Some olds =>
              Some (mkMapData (robots md) (shelves md)
                      (Some (map (fun t =>
                         match findById (Some olds) t with
                         | Some oldTask => <["status" := get t "status"]> oldTask
                         | None => t
                         end) ts))
                      (rest md))
          end
      end
  end.

End WarehouseMap.

(* ===================================================================== *)
(** * pages/Robots.tsx: the telemetry subscription *)
(* ===================================================================== *)

Module RobotsPage.
Import JS.

Definition isMatch (data r : JsObj) : bool :=
  strict_eq (get r "robot_id") (get data "robot_id")
  || strict_eq (get r "robot_id") (get data "robot")
  || strict_eq (get r "name") (get data "name")
  || strict_eq (get r "id") (get data "id")
  || strict_eq (get r "robot_id") (get data "id").

(** [data.a !== undefined ? Number(data.a)
      : (data.b !== undefined ? Number(data.b) : r.k)] *)
Definition position `{Host} (data r : JsObj) (a b k : string) : JsVal :=
  if defined (get data a) then VNum (Number (get data a))
  else if defined (get data b) then VNum (Number (get data b))
  else get r k.

Definition telemetryPatch `{Host} (data r : JsObj) : JsObj :=
  <["status" := if defined (get data "status") then get data "status" else get r "status"]>
  (<["temperature" := WarehouseMap.numberOrKeep data r "temperature"]>
  (<["battery_level" := WarehouseMap.numberOrKeep data r "battery_level"]>
  (<["ram_usage" := WarehouseMap.numberOrKeep data r "ram_usage"]>
  (<["cpu_usage" := WarehouseMap.numberOrKeep data r "cpu_usage"]>
  (<["current_yaw" := position data r "yaw" "current_yaw" "current_yaw"]>
  (<["current_y" := position data r "y" "current_y" "current_y"]>
  (<["current_x" := position data r "x" "current_x" "current_x"]>
  (<["yaw" := position data r "yaw" "current_yaw" "yaw"]>
  (<["y" := position data r "y" "current_y" "y"]>
  (<["x" := position data r "x" "current_x" "x"]> r)))))))))).

(** The properties of a robot that the handler writes, each with the
    payload properties it is read from, in order of preference. *)
Definition sources : list (string * list string) :=
  [("x", ["x"; "current_x"]); ("y", ["y"; "current_y"]); ("yaw", ["yaw"; "current_yaw"]);
   ("current_x", ["x"; "current_x"]); ("current_y", ["y"; "current_y"]);
   ("current_yaw", ["yaw"; "current_yaw"]);
   ("cpu_usage", ["cpu_usage"]); ("ram_usage", ["ram_usage"]);
   ("battery_level", ["battery_level"]); ("temperature", ["temperature"]);
   ("status", ["status"])].

(** The callback given to [onTelemetry], as the update of [robotList]. *)
Definition onTelemetry `{Host} (data : JsObj) (prev : list JsObj) : list JsObj :=
  map (fun r => if isMatch data r then telemetryPatch data r else r) prev.

(** The match of the fallback subscription ([onRobotUpdate]). *)
Definition isMatchUpdate (data r : JsObj) : bool :=
  strict_eq (get r "robot_id") (get data "robot_id")
  || strict_eq (get r "robot_id") (get data "robot")
  || strict_eq (get r "id") (get data "robot_id")
  || strict_eq (get r "id") (get data "id").

Definition onRobotUpdate `{Host} (data : JsObj) (prev : list JsObj) : list JsObj :=
  map (fun r => if isMatchUpdate data r then telemetryPatch data r else r) prev.

(** The update of [robotList] in the 100 ms position poll. *)
Definition pollPositions (updated prev : list JsObj) : list JsObj :=
  map (fun robot =>
         match List.find (fun r => strict_eq (get r "id") (get robot "id")) updated with
         | Some found => WarehouseMap.polledPosition found robot
         | None => robot
         end) prev.

(** The properties that identify a robot in a payload or a record. *)
Definition identityKeys : list string := ["robot_id"; "robot"; "name"; "id"].

End RobotsPage.

(* ===================================================================== *)
(** * services/websocket.ts *)
(* ===================================================================== *)

Module WebSocket.
Import JS.

(* ---- the singleton connection ---- *)

(** What the module reads from its surroundings when it connects. *)
Record Env := mkEnv {
  VITE_WS_URL : option string;
  protocol : string;                         (* [window.location.protocol] *)
  hostname : string;                         (* [window.location.hostname] *)
  localStorage : option (gmap string string) (* [None]: access throws *)
}.

Definition getWebSocketUrl (env : Env) : string :=
  match VITE_WS_URL env with
  | Some envUrl =>
      if negb (String.eqb envUrl "") then envUrl
      else (if String.eqb (protocol env) "https:" then "wss:" else "ws:")
             ++ "//" ++ hostname env ++ ":5000"
  | None =>
      (if String.eqb (protocol env) "https:" then "wss:" else "ws:")
        ++ "//" ++ hostname env ++ ":5000"
  end.

(** [localStorage.getItem(a) || localStorage.getItem(b) || null] *)
Definition getAuthToken (env : Env) : option string :=
  match localStorage env with
  | None => None
  | Some ls =>
      match ls !! "access_token" with
      | Some t => if negb (String.eqb t "") then Some t
                  else match ls !! "token" with
                       | Some u => if negb (String.eqb u "") then Some u else None
                       | None => None
                       end
      | None => match ls !! "token" with
                | Some u => if negb (String.eqb u "") then Some u else None
                | None => None
                end
      end
  end.

(** The listeners the module attaches to a fresh socket. *)
Inductive Listener :=
| Log                              (* writes to the console only *)
| Fanout (events : list string).   (* logs, then [invokeCallbacks] per name *)

Record Options := mkOptions {
  auth : option string;
  reconnection : bool;
  reconnectionAttempts : option nat;   (* [None]: [Infinity] *)
  reconnectionDelay : Z;
  reconnectionDelayMax : Z;
  timeout : Z;
}.

(** A socket object created by [io(url, options)]. *)
Record SocketObj := mkSocket {
  url : string;
  options : Options;
  listeners : list (string * Listener);
  disconnected : bool;                 (* [disconnect()] was called *)
}.

Definition moduleListeners : list (string * Listener) :=
  [("connect", Log); ("disconnect", Log); ("connect_error", Log);
   ("reconnect_attempt", Log);
   ("telemetry", Fanout ["telemetry"; "robot_update"]);
   ("map_update", Fanout ["map_update"]);
   ("robot_status", Fanout ["robot_status"]);
   ("task_status", Fanout ["task_status"]);
   ("error", Fanout ["error"]);
   ("task_update", Fanout ["task_update"]);
   ("robot_update", Fanout ["robot_update"]);
   ("shelf_update", Fanout ["shelf_update"]);
   ("shelf_location_update", Fanout ["shelf_location_update"]);
   ("robot_position_update", Fanout ["robot_position_update"; "robot_update"]);
   ("task_progress_update", Fanout ["task_progress_update"]);
   ("system_update", Fanout ["system_update"])].

(** [io(getWebSocketUrl(), {...})] followed by the [socket.on] calls. *)
Definition newSocket (env : Env) : SocketObj :=
  mkSocket (getWebSocketUrl env)
           (mkOptions (getAuthToken env) true None 500 5000 20000)
           moduleListeners false.

(** The module variable [socket] (a reference, or [null]) and the socket
    objects created so far; a reference is an index into [sockets]. Every
    entry of [sockets] is one connection that was opened. *)
Record Conn := mkConn {
  socket : option nat;
  sockets : list SocketObj;
}.

Definition connectWebSocket (env : Env) (c : Conn) : nat * Conn :=
  match socket c with
  | Some s => (s, c)
  | None =>
      let s := length (sockets c) in
      (s, mkConn (Some s) (sockets c ++ [newSocket env]))
  end.

Definition getSocket (c : Conn) : option nat := socket c.

Definition disconnectWebSocket (c : Conn) : Conn :=
  match socket c with
  | Some s =>
      mkConn None
        (alter (fun o => mkSocket (url o) (options o) (listeners o) true) s (sockets c))
  | None => c
  end.

(* ---- the callback registry ---- *)

(** A statement of the module completes normally or throws. *)
Inductive Completion (A : Type) :=
| Normal (a : A)
| Throw (e : JsVal).
Arguments Normal {A} _.
Arguments Throw {A} _.

Section Registry.
(** What the registered callbacks read and write: the state of the
    components that subscribed. A callback may end normally or throw, and
    changes that state either way; it does not subscribe or unsubscribe
    while an event is being dispatched. *)
Context {App : Type}.

(** A registered function: its identity (a [Set] holds a function
    once) and what a call does. *)
Record Callback := mkCallback {
  ref : nat;
  call : JsObj -> App -> Completion unit * App;
}.

(** [callbackRegistry], the application state, the lines written by
    [console.error], and (for the statements below only) the
    references of the callbacks called so far. The registry holds, per
    event name, a [Set] in insertion order; the module registers and
    dispatches under its own event-name literals, which the map's keys
    stand for. *)
Record Runtime := mkRuntime {
  callbackRegistry : gmap string (list Callback);
  app : App;
  console : list (string * JsVal);
  called : list nat;
}.

Definition M (A : Type) : Type := Runtime -> Completion A * Runtime.

Definition ret {A} (a : A) : M A := fun rt => (Normal a, rt).

Definition bind {A B} (m : M A) (k : A -> M B) : M B :=
  fun rt =>
    match m rt with
    | (Normal a, rt') => k a rt'
    | (Throw e, rt') => (Throw e, rt')
    end.

(** [try { m } catch (e) { h e }] *)
Definition try_catch {A} (m : M A) (h : JsVal -> M A) : M A :=
  fun rt =>
    match m rt with
    | (Normal a, rt') => (Normal a, rt')
    | (Throw e, rt') => h e rt'
    end.

(** [xs.forEach(f)]: an exception leaving [f] ends the iteration. *)
Fixpoint forEach {X} (f : X -> M unit) (xs : list X) : M unit :=
  match xs with
  | [] => ret tt
  | x :: rest => bind (f x) (fun _ => forEach f rest)
  end.

(** [cb(data)] *)
Definition invoke (cb : Callback) (data : JsObj) : M unit :=
  fun rt =>
    let '(c, a) := call cb data (app rt) in
    (c, mkRuntime (callbackRegistry rt) a (console rt) (called rt ++ [ref cb])).

(** [console.error(message, e)] *)
Definition console_error (message : string) (e : JsVal) : M unit :=
  fun rt =>
    (Normal tt,
     mkRuntime (callbackRegistry rt) (app rt) (console rt ++ [(message, e)]) (called rt)).

Definition invokeCallbacks (eventName : string) (data : JsObj) : M unit :=
  fun rt =>
    match callbackRegistry rt !! eventName with
    | Some cbs =>
        forEach (fun cb =>
          try_catch (invoke cb data)
            (fun e => console_error ("Error invoking callback for " ++ eventName ++ ":")%string e))
          cbs rt
    | None => (Normal tt, rt)
    end.

(** The same fan-out without the [try]/[catch] around the call, for
    comparison. *)
Definition invokeCallbacks_unguarded (eventName : string) (data : JsObj) : M unit :=
  fun rt =>
    match callbackRegistry rt !! eventName with
    | Some cbs => forEach (fun cb => invoke cb data) cbs rt
    | None => (Normal tt, rt)
    end.

(** [set.add(cb)] *)
Definition set_add (cb : Callback) (s : list Callback) : list Callback :=
  if existsb (fun c => Nat.eqb (ref c) (ref cb)) s then s else s ++ [cb].

(** [set.delete(cb)] *)
Definition set_delete (cb : Callback) (s : list Callback) : list Callback :=
  filter (fun c => ref c ≠ ref cb) s.

Definition registerCallback (eventName : string) (callback : Callback)
    (rt : Runtime) : Runtime :=
  mkRuntime
    (<[eventName := set_add callback (default [] (callbackRegistry rt !! eventName))]>
       (callbackRegistry rt))
    (app rt) (console rt) (called rt).

(** The function [registerCallback] returns. *)
Definition unsubscribe (eventName : string) (callback : Callback)
    (rt : Runtime) : Runtime :=
  match callbackRegistry rt !! eventName with
  | Some s =>
      mkRuntime (<[eventName := set_delete callback s]> (callbackRegistry rt))
                (app rt) (console rt) (called rt)
  | None => rt
  end.

(** What the callbacks of an event do to the application state when
    each of them is called once, in registration order. *)
Definition effects (data : JsObj) (cbs : list Callback) (a : App) : App :=
  foldl (fun a cb => snd (call cb data a)) a cbs.

(** The console lines of the callbacks that throw. *)
Fixpoint errors (eventName : string) (data : JsObj) (cbs : list Callback) (a : App)
    : list (string * JsVal) :=
  match cbs with
  | [] => []
  | cb :: rest =>
      match call cb data a with
      | (Normal _, a') => errors eventName data rest a'
      | (Throw e, a') =>
          (("Error invoking callback for " ++ eventName ++ ":")%string, e)
            :: errors eventName data rest a'
      end
  end.

(** The events whose callbacks a socket event reaches: the names that
    the module's listeners for it hand to [invokeCallbacks], in order. *)
Definition fanout (name : string) : list string :=
  flat_map (fun nl : string * Listener =>
              if String.eqb (fst nl) name
              then match snd nl with Fanout events => events | Log => [] end
              else [])
           moduleListeners.

(** What the module's listeners do when the socket emits event [name]
    with [data] (the line each listener first writes with [console.log],
    or with [console.error] for the event "error", is not recorded). *)
Definition onSocketEvent (name : string) (data : JsObj) : M unit :=
  forEach (fun eventName => invokeCallbacks eventName data) (fanout name).

(** [subscribeToMapUpdates], on the registry (it also emits
    [subscribe_map]). *)
Definition subscribeToMapUpdates (callback : Callback) : Runtime -> Runtime :=
  registerCallback "map_data" callback.

(** [onRobotUpdate] *)
Definition onRobotUpdate (cb : Callback) : Runtime -> Runtime :=
  registerCallback "robot_update" cb.

(** The callbacks registered under an event. *)
Definition subscribers (rt : Runtime) (eventName : string) : list Callback :=
  default [] (callbackRegistry rt !! eventName).

End Registry.
Arguments Callback : clear implicits.
Arguments Runtime : clear implicits.

End WebSocket.

(* ===================================================================== *)
(** * hooks/useTaskSocket.ts: the reconnect delay *)
(* ===================================================================== *)

Module UseTaskSocket.

Definition MAX_RECONNECT_ATTEMPTS : N := 5.
Definition BASE_RECONNECT_DELAY : float := 1000%float.

(** [Math.pow(2, n)] for a count [n]: the power of two, which is a
    double up to [2^1023] and [Infinity] above. *)
Definition Math_pow2 (n : N) : float := Z.ldexp PrimFloat.one (Z.of_N n).

(** [Math.min(a, b)] *)
Definition Math_min (a b : float) : float :=
  if (PrimFloat.is_nan a || PrimFloat.is_nan b)%bool then PrimFloat.nan
  else if PrimFloat.ltb a b then a
  else if PrimFloat.ltb b a then b
  else if PrimFloat.get_sign a then a else b.

(** [getReconnectDelay] reads the count of [reconnectCountRef], which
    starts at zero, is incremented on every disconnect and reset on
    connect. *)
Definition getReconnectDelay (reconnectCount : N) : float :=
  Math_min (PrimFloat.mul BASE_RECONNECT_DELAY (Math_pow2 reconnectCount)) 30000%float.

(** The double that holds the integer [z], for [0 <= z < 2^53]. *)
Definition ofZ (z : Z) : float := PrimFloat.of_uint63 (Uint63Axioms.of_Z z).

End UseTaskSocket.

(* ===================================================================== *)
(** * hooks/useData.ts: the dashboard statistics *)
(* ===================================================================== *)

Module Dashboard.
Import JS.

Record DashboardStats := mkStats {
  totalRobots : nat;
  activeRobots : nat;
  totalTasks : nat;
  completedTasks : nat;
  pendingTasks : nat;
  activeTasks : nat;
  totalShelves : nat;
  totalProducts : nat;
  systemHealth : string;
}.

(** [r.status === 'busy' || r.status === 'idle'] *)
Definition isActiveRobot (r : JsObj) : bool :=
  strict_eq (get r "status") (VStr "busy") || strict_eq (get r "status") (VStr "idle").

(** [names.includes(v)] for an array of strings *)
Definition includes (names : list string) (v : JsVal) : bool :=
  existsb (fun s => strict_eq (VStr s) v) names.

Definition isActiveTask (t : JsObj) : bool :=
  negb (includes ["COMPLETED"; "CANCELLED"; "FAILED"] (get t "status")).

Definition hasStatus (status : string) (t : JsObj) : bool :=
  strict_eq (get t "status") (VStr status).

(** The value given to [setStats] in [useDashboardStats], from the four
    lists the hook has fetched. *)
Definition computeStats (robotsData tasksData shelvesData productsData : list JsObj)
    : DashboardStats :=
  let activeRobots := List.filter isActiveRobot robotsData in
  let activeTasks := List.filter isActiveTask tasksData in
  let completedTasks := List.filter (hasStatus "COMPLETED") tasksData in
  let pendingTasks := List.filter (hasStatus "PENDING") tasksData in
  mkStats (length robotsData) (length activeRobots)
          (length tasksData) (length completedTasks) (length pendingTasks)
          (length activeTasks)
          (length shelvesData) (length productsData)
          (if Nat.ltb 0 (length activeRobots) then "healthy"
           else if Nat.ltb 0 (length robotsData) then "warning"
           else "critical").

(** The status values of the backend's robots ([RobotStatus], and
    [CHARGING] of the map view). *)
Definition robotStatuses : list string := ["IDLE"; "BUSY"; "ERROR"; "OFFLINE"; "CHARGING"].

End Dashboard.

(* ===================================================================== *)
(** * The specification's wording of two derived notions *)
(* ===================================================================== *)

Module Wording.
Import JS.

(** "[isAtStorage = (current == storage)] within a small epsilon" *)
Definition isAtStorage_within (epsilon : float) (shelf : ShelfMap.t) : bool :=
  PrimFloat.leb
    (PrimFloat.abs (PrimFloat.sub (Coordinates.x (ShelfMap.current shelf))
                                  (Coordinates.x (ShelfMap.storage shelf)))) epsilon
  && PrimFloat.leb
       (PrimFloat.abs (PrimFloat.sub (Coordinates.y (ShelfMap.current shelf))
                                     (Coordinates.y (ShelfMap.storage shelf)))) epsilon.

(** "non-numeric or missing values": what does not parse to a number. *)
Definition numeric `{Host} (v : JsVal) : bool :=
  match v with
  | VNum n => negb (PrimFloat.is_nan n)
  | VStr s => negb (PrimFloat.is_nan (StringToNumber s))
  | VUndef | VNull | VBool _ => false
  end.

(** "exponential delay ..., capped at a maximum delay":
    min(1000 * 2^n, 30000) *)
Definition delay_formula (n : N) : Z := Z.min (1000 * 2 ^ Z.of_N n) 30000.

(** The hook's delay is the double of the formula's integer. *)
Definition delay_agrees (n : N) : bool :=
  PrimFloat.Leibniz.eqb (UseTaskSocket.getReconnectDelay n)
                        (UseTaskSocket.ofZ (delay_formula n)).

End Wording.

(* ===================================================================== *)
(** * Concrete stores and payloads *)
(* ===================================================================== *)

Module Scenario.
Import JS.

(** The shelf of the position-update scenario, and a second one. *)
Definition S1 : ShelfMap.t :=
  ShelfMap.mk "S1" "warehouse-1" (Coordinates.mk 100 150 None) (Coordinates.mk 100 150 None)
              "STORED" true ShelfMap.IDLE.

Definition S2 : ShelfMap.t :=
  ShelfMap.mk "S2" "warehouse-1" (Coordinates.mk 300 150 None) (Coordinates.mk 320 170 None)
              "IN_TRANSIT" false ShelfMap.BUSY.

Definition store : MapContext.MapState :=
  MapContext.setShelves [S1; S2] MapContext.initial.

(** The Shelves page showing S1, and push payloads for it. *)
Definition S1_row : JsObj :=
  <["id" := VStr "S1"]> (<["warehouse_id" := VStr "warehouse-1"]>
  (<["storage_x" := VNum 100]> (<["storage_y" := VNum 150]>
  (<["current_x" := VNum 100]> (<["current_y" := VNum 150]>
  (<["available" := VBool true]> ∅)))))).

Definition page : ShelvesPage.PageState := ShelvesPage.mkPage [S1_row] (Some S1_row).

Definition push_with_storage : ShelvesPage.Push :=
  ShelvesPage.shelf_update (<["id" := VStr "S1"]> (<["storage_x" := VNum 999]> ∅)).

Definition push_metadata : ShelvesPage.Push :=
  ShelvesPage.shelf_update (<["id" := VStr "S1"]> (<["available" := VBool false]> ∅)).

Definition push_location : ShelvesPage.Push :=
  ShelvesPage.shelf_location_update
    (<["id" := VStr "S1"]> (<["current_x" := VNum 500]> (<["current_y" := VNum 500]>
    (<["storage_x" := VNum 7]> (<["storage_y" := VNum 8]> ∅))))).

(** The edit form of the Shelves page with a new storage position. *)
Definition form : ShelvesPage.FormData :=
  ShelvesPage.mkForm (VNum 200) (VNum 250) VUndef.

(** A backend answer to the panel's set-storage request whose record
    has the new storage position and a current position moved with it. *)
Definition S1_moved : ShelfMap.t :=
  ShelfMap.mk "S1" "warehouse-1" (Coordinates.mk 200 250 None) (Coordinates.mk 200 250 None)
              "STORED" true ShelfMap.IDLE.

Definition panel : ShelfDetailsPanel.Panel :=
  ShelfDetailsPanel.mkPanel false true (ShelfDetailsPanel.mkCoords 200 250 0) None None.

(** S1 a hair off its storage position: the current x is the double
    next above 100. *)
Definition S1_nudged : ShelfMap.t :=
  ShelfMap.mk "S1" "warehouse-1" (Coordinates.mk 100 150 None)
              (Coordinates.mk (PrimFloat.next_up 100) 150 None)
              "STORED" true ShelfMap.IDLE.

Definition panel_closed : ShelfDetailsPanel.Panel :=
  ShelfDetailsPanel.mkPanel false false (ShelfDetailsPanel.mkCoords 100 150 0) None None.

(** A robot row of the Robots page, and telemetry for it whose x is
    [null]. *)
Definition r1_row : JsObj :=
  <["id" := VStr "1"]> (<["robot_id" := VStr "r1"]> (<["name" := VStr "MP-400"]>
  (<["x" := VNum 5]> (<["y" := VNum 6]> (<["yaw" := VNum 90]>
  (<["battery_level" := VNum 80]> ∅)))))).

Definition telemetry_null_x : JsObj :=
  <["robot_id" := VStr "r1"]> (<["x" := VNull]> (<["y" := VNum 6]> ∅)).

Definition telemetry_battery : JsObj :=
  <["robot_id" := VStr "r1"]> (<["battery_level" := VNum 42]> ∅).

(** A shelf document as the REST layer may receive it. *)
Definition shelf_doc : JsObj :=
  <["_id" := VStr "65a1"]> (<["current_x" := VNum 3]> (<["current_y" := VNull]>
  (<["storage_x" := VBool true]> ∅))).

Definition map_data : WarehouseMap.MapData :=
  WarehouseMap.mkMapData (Some [r1_row]) (Some [S1_row]) (Some []) ∅.

(** The examples hold no text that is read as a number and no number
    that is printed as text, so that the host is not consulted on them;
    this one stands in. *)
Definition host : Host :=
  {| StringToNumber := fun _ => PrimFloat.nan; NumberToString := fun _ => "" |}.

(** Two subscribers of the telemetry event over a counter: the first
    throws, the second counts the event. *)
Definition thrower : WebSocket.Callback nat :=
  WebSocket.mkCallback 1 (fun _ a => (WebSocket.Throw (VStr "boom"), a)).

Definition counter : WebSocket.Callback nat :=
  WebSocket.mkCallback 2 (fun _ a => (WebSocket.Normal tt, S a)).

Definition runtime : WebSocket.Runtime nat :=
  WebSocket.registerCallback "telemetry" counter
    (WebSocket.registerCallback "telemetry" thrower
       (WebSocket.mkRuntime ∅ 0 [] [])).

(** A connection that was opened once. *)
Definition env : WebSocket.Env :=
  WebSocket.mkEnv None "https:" "warehouse.local" (Some (<["token" := "abc"]> ∅)).

Definition conn : WebSocket.Conn := snd (WebSocket.connectWebSocket env (WebSocket.mkConn None [])).

(** The map page's subscription to map updates, over a counter. *)
Definition map_listener : WebSocket.Callback nat :=
  WebSocket.mkCallback 7 (fun _ a => (WebSocket.Normal tt, S a)).

(** The text operations for forms whose warehouse id is plain ASCII
    without surrounding blanks. *)
Definition text_host : TextHost :=
  {| trim := fun s => s; length16 := String.length |}.

(** A filled-in edit form for S1 with a new storage position. *)
Definition edit_form : ShelvesPage.EditForm :=
  ShelvesPage.mkEditForm "warehouse-1" (VNum 100) (VNum 150) (VNum 0) (VNum 1)
    (VBool true) "IDLE" form.

(** What the dashboard fetches: two robots with the backend's status
    values, and three tasks. *)
Definition robots_data : list JsObj :=
  [<["id" := VStr "1"]> (<["status" := VStr "IDLE"]> ∅);
   <["id" := VStr "2"]> (<["status" := VStr "BUSY"]> ∅)].

Definition tasks_data : list JsObj :=
  [<["id" := VStr "t1"]> (<["status" := VStr "PENDING"]> ∅);
   <["id" := VStr "t2"]> (<["status" := VStr "COMPLETED"]> ∅);
   <["id" := VStr "t3"]> (<["status" := VStr "MOVING_TO_DROP"]> ∅)].

(** A poll answer for the shelves: S1 elsewhere and with another
    storage position, and a shelf the page has not seen. *)
Definition S1_polled : JsObj :=
  <["id" := VStr "S1"]> (<["current_x" := VNum 500]> (<["current_y" := VNum 500]>
  (<["storage_x" := VNum 7]> (<["storage_y" := VNum 8]> ∅)))).

Definition S9_polled : JsObj :=
  <["id" := VStr "S9"]> (<["current_x" := VNum 1]> (<["current_y" := VNum 2]> ∅)).

(** Telemetry that names no robot. *)
Definition telemetry_anonymous : JsObj := <["x" := VNum 1]> (<["y" := VNum 2]> ∅).

End Scenario.

(* ===================================================================== *)
(** * Properties of the context store *)
(* ===================================================================== *)

Section MapContextFacts.
Import MapContext.

Lemma fromArray_app {A} (key : A -> string) (xs ys : list A) :
  fromArray key (xs ++ ys) = foldl (fun map x => <[key x := x]> map) (fromArray key xs) ys.
Proof. unfold fromArray. apply foldl_app. Qed.

(** The map built from an array holds, under each key, the last element
    of the array with that key. *)
Lemma fromArray_snoc_lookup {A} (key : A -> string) (xs : list A) (x : A) (k : string) :
  fromArray key (xs ++ [x]) !! k
  = if decide (key x = k) then Some x else fromArray key xs !! k.
Proof.
  rewrite fromArray_app. simpl. case_decide as Hk.
  - subst k. apply lookup_insert_eq.
  - by apply lookup_insert_ne.
Qed.

Lemma fromArray_dom {A} (key : A -> string) (xs : list A) (k : string) :
  is_Some (fromArray key xs !! k) <-> k ∈ map key xs.
Proof.
  induction xs as [|x xs IH] using rev_ind.
  - cbn. rewrite lookup_empty. split; [by intros [? ?]|]. by intros ?%elem_of_nil.
  - rewrite fromArray_snoc_lookup, map_app, elem_of_app. cbn.
    case_decide as Hk.
    + split; [intros _; right; subst; apply list_elem_of_here | eauto].
    + rewrite IH. split; [tauto|]. intros [?|Hin]; [done|].
      apply list_elem_of_singleton in Hin. congruence.
Qed.

Lemma setShelfCurrent_storage shelfId x y ls id st :
  storageOf id (setShelfCurrent shelfId x y ls st) = storageOf id st.
Proof.
  unfold storageOf, setShelfCurrent, setShelvesState. cbn.
  destruct (shelves st !! shelfId) as [shelf|] eqn:Hs; [|done].
  destruct (decide (shelfId = id)) as [->|Hne].
  - by rewrite lookup_insert_eq, Hs.
  - by rewrite lookup_insert_ne.
Qed.

Lemma markShelfFixed_storage shelfId id st :
  storageOf id (markShelfFixed shelfId st) = storageOf id st.
Proof.
  unfold storageOf, markShelfFixed, setShelvesState. cbn.
  destruct (shelves st !! shelfId) as [shelf|] eqn:Hs; [|done].
  destruct (decide (shelfId = id)) as [->|Hne].
  - by rewrite lookup_insert_eq, Hs.
  - by rewrite lookup_insert_ne.
Qed.

Lemma applyPatch_storage p id st : storageOf id (applyPatch p st) = storageOf id st.
Proof.
  destruct p; cbn.
  - apply setShelfCurrent_storage.
  - apply markShelfFixed_storage.
  - reflexivity.
  - reflexivity.
Qed.

Lemma applyPatches_storage ps id st :
  storageOf id (applyPatches ps st) = storageOf id st.
Proof.
  revert st. induction ps as [|p ps IH]; intros st; [done|].
  cbn. fold (applyPatches ps (applyPatch p st)).
  rewrite IH. apply applyPatch_storage.
Qed.

End MapContextFacts.

(** C2. The literal position update: with shelf S1 stored at
    (100,150), current (100,150) and status STORED, the call
    [setShelfCurrent("S1", 500, 500, "AT_DROP_ZONE")] leaves S1's storage
    at (100,150), makes its current position (500,500) and its location
    status AT_DROP_ZONE; every other shelf, and the tasks and robots, are
    as before. *)
Theorem setShelfCurrent_scenario (st : MapContext.MapState) (s1 : ShelfMap.t) :
  MapContext.shelves st !! "S1" = Some s1 ->
  ShelfMap.storage s1 = Coordinates.mk 100 150 None ->
  ShelfMap.current s1 = Coordinates.mk 100 150 None ->
  ShelfMap.location_status s1 = "STORED" ->
  let st' := MapContext.setShelfCurrent "S1" 500 500 "AT_DROP_ZONE" st in
  (exists s1',
      MapContext.shelves st' !! "S1" = Some s1'
      /\ ShelfMap.storage s1' = Coordinates.mk 100 150 None
      /\ ShelfMap.current s1' = Coordinates.mk 500 500 None
      /\ ShelfMap.location_status s1' = "AT_DROP_ZONE"
      /\ ShelfMap.id s1' = ShelfMap.id s1
      /\ ShelfMap.warehouse_id s1' = ShelfMap.warehouse_id s1
      /\ ShelfMap.available s1' = ShelfMap.available s1
      /\ ShelfMap.status s1' = ShelfMap.status s1)
  /\ (forall id, id <> "S1" -> MapContext.shelves st' !! id = MapContext.shelves st !! id)
  /\ MapContext.tasks st' = MapContext.tasks st
  /\ MapContext.robots st' = MapContext.robots st.
Proof.
  intros Hs Hsto Hcur Hls st'. subst st'.
  unfold MapContext.setShelfCurrent, MapContext.setShelvesState. cbn. rewrite Hs.
  split; [|split; [|split]]; try reflexivity.
  - eexists. split; [apply lookup_insert_eq|]. cbn. rewrite Hsto, Hcur. cbn.
    repeat split; reflexivity.
  - intros id Hid. by apply lookup_insert_ne.
Qed.

Lemma setShelfCurrent_scenario_witness :
  MapContext.shelves
    (MapContext.setShelfCurrent "S1" 500 500 "AT_DROP_ZONE" Scenario.store) !! "S2"
  = Some Scenario.S2.
Proof.
  pose proof (setShelfCurrent_scenario Scenario.store Scenario.S1
                eq_refl eq_refl eq_refl eq_refl) as (_ & Hother & _).
  rewrite Hother; [reflexivity | discriminate].
Defined.

(** C4. Unknown-id drop: a patch ([setShelfCurrent], [markShelfFixed],
    [setRobotPosition], [updateTaskStatus]) addressed to an id with no
    record in the store returns the store it was given: nothing is created
    and nothing is altered. *)
Theorem unknown_id_drop (p : MapContext.Patch) (st : MapContext.MapState) :
  ~ MapContext.addressed p st -> MapContext.applyPatch p st = st.
Proof.
  intros Hno. destruct st as [ts ss rs].
  destruct p as [i x y ls|i|i x y|i s]; cbn in *;
    unfold MapContext.setShelfCurrent, MapContext.markShelfFixed,
      MapContext.setRobotPosition, MapContext.updateTaskStatus,
      MapContext.setShelvesState, MapContext.setRobotsState,
      MapContext.setTasksState; cbn.
  - destruct (ss !! i) eqn:E; [exfalso; apply Hno; eauto | reflexivity].
  - destruct (ss !! i) eqn:E; [exfalso; apply Hno; eauto | reflexivity].
  - destruct (rs !! i) eqn:E; [exfalso; apply Hno; eauto | reflexivity].
  - destruct (ts !! i) eqn:E; [exfalso; apply Hno; eauto | reflexivity].
Qed.

Lemma unknown_id_drop_witness :
  MapContext.setShelfCurrent "S9" 500 500 "AT_DROP_ZONE" Scenario.store = Scenario.store
  /\ MapContext.setRobotPosition "r99" 1 2 Scenario.store = Scenario.store
  /\ MapContext.updateTaskStatus "t7" "COMPLETED" Scenario.store = Scenario.store.
Proof.
  split; [|split].
  - apply (unknown_id_drop (MapContext.PSetShelfCurrent "S9" 500 500 "AT_DROP_ZONE")).
    cbn. intros [s Hs]. vm_compute in Hs. discriminate.
  - apply (unknown_id_drop (MapContext.PSetRobotPosition "r99" 1 2)).
    cbn. intros [s Hs]. vm_compute in Hs. discriminate.
  - apply (unknown_id_drop (MapContext.PUpdateTaskStatus "t7" "COMPLETED")).
    cbn. intros [s Hs]. vm_compute in Hs. discriminate.
Defined.

(** C6. Idempotence of bulk replace: [setTasks], [setShelves] and
    [setRobots] applied twice with the same snapshot give the store that
    one application gives, whatever the store was before. *)
Theorem bulk_replace_idempotent
    (st : MapContext.MapState)
    (newTasks : list TaskMapView.t) (newShelves : list ShelfMap.t) (newRobots : list Robot.t) :
  MapContext.setTasks newTasks (MapContext.setTasks newTasks st)
  = MapContext.setTasks newTasks st
  /\ MapContext.setShelves newShelves (MapContext.setShelves newShelves st)
     = MapContext.setShelves newShelves st
  /\ MapContext.setRobots newRobots (MapContext.setRobots newRobots st)
     = MapContext.setRobots newRobots st.
Proof. repeat split. Qed.

(** What a bulk replace leaves in the collection it replaces: exactly the
    ids of the snapshot, none of the earlier records. *)
Lemma setShelves_ids (st : MapContext.MapState) (newShelves : list ShelfMap.t) (id : string) :
  is_Some (MapContext.shelves (MapContext.setShelves newShelves st) !! id)
  <-> id ∈ map ShelfMap.id newShelves.
Proof. cbn. apply fromArray_dom. Qed.

(* ===================================================================== *)
(** * Storage coordinates under push updates *)
(* ===================================================================== *)

Lemma same_value_eq (a b : JS.JsVal) : JS.same_value a b = true <-> a = b.
Proof.
  destruct a, b; cbn; try (split; [discriminate | congruence]); try tauto.
  - rewrite Bool.eqb_true_iff. split; congruence.
  - rewrite FloatAxioms.Leibniz.eqb_spec. split; congruence.
  - rewrite String.eqb_eq. split; congruence.
Qed.

Lemma same_value_neq (a b : JS.JsVal) : JS.same_value a b = false -> a <> b.
Proof. intros H E. apply same_value_eq in E. congruence. Qed.

Section ShelvesPageFacts.
Import JS ShelvesPage.

Lemma get_spread_absent (s data : JsObj) (k : string) :
  data !! k = None -> get (spread s data) k = get s k.
Proof. intros H. unfold get, spread. by rewrite lookup_union_r. Qed.

Lemma get_spread_present (s data : JsObj) (k : string) (v : JsVal) :
  data !! k = Some v -> get (spread s data) k = v.
Proof.
  intros H. unfold get, spread.
  by rewrite (lookup_union_Some_l data s k v H).
Qed.

Lemma storageOf_spread (s data : JsObj) :
  Forall (fun k => data !! k = None) storageKeys ->
  storageOf (spread s data) = storageOf s.
Proof.
  intros H. unfold storageKeys in H.
  apply Forall_cons in H as [Hx H]. apply Forall_cons in H as [Hy H].
  apply Forall_cons in H as [Hw _].
  unfold storageOf. by rewrite !get_spread_absent.
Qed.

Lemma storageOf_withCurrent (data s : JsObj) :
  storageOf (withCurrent data s) = storageOf s.
Proof.
  unfold storageOf, withCurrent, get.
  by rewrite !lookup_insert_ne.
Qed.

Lemma onPush_storage (e : Push) (st : PageState) :
  carriesNoStorage e ->
  map storageOf (shelfList (onPush e st)) = map storageOf (shelfList st)
  /\ storageOf <$> selectedShelf (onPush e st) = storageOf <$> selectedShelf st.
Proof.
  intros H. destruct e as [data|data]; cbn in *.
  - split; [|reflexivity]. rewrite map_map. apply map_ext. intros s.
    destruct (sameId s data); [by apply storageOf_spread | reflexivity].
  - split.
    + rewrite map_map. apply map_ext. intros s.
      destruct (sameId s data); [apply storageOf_withCurrent | reflexivity].
    + destruct (selectedShelf st) as [prev|]; [|reflexivity].
      destruct (sameId prev data); cbn; [|reflexivity].
      by rewrite storageOf_withCurrent.
Qed.

Lemma onPushes_storage (es : list Push) (st : PageState) :
  Forall carriesNoStorage es ->
  map storageOf (shelfList (onPushes es st)) = map storageOf (shelfList st)
  /\ storageOf <$> selectedShelf (onPushes es st) = storageOf <$> selectedShelf st.
Proof.
  revert st. induction es as [|e es IH]; intros st H; [done|].
  apply Forall_cons in H as [He Hes]. cbn. fold (onPushes es (onPush e st)).
  destruct (IH (onPush e st) Hes) as [-> ->]. by apply onPush_storage.
Qed.

(** A [shelf_update] installs every property of its payload on the
    shelf with the payload's id, the storage coordinates included. *)
Lemma on_shelf_update_overwrites (data s : JsObj) (k : string) (v : JsVal) :
  sameId s data = true -> data !! k = Some v ->
  get (if sameId s data then spread s data else s) k = v.
Proof. intros -> H. by apply get_spread_present. Qed.

End ShelvesPageFacts.

(** C1 fails as stated: a [shelf_update] push whose payload names shelf S1
    and carries [storage_x: 999] replaces the stored x coordinate 100 of
    S1 on the Shelves page. *)
Lemma shelf_update_overwrites_storage :
  map ShelvesPage.storageOf
      (ShelvesPage.shelfList (ShelvesPage.onPushes [Scenario.push_with_storage] Scenario.page))
  <> map ShelvesPage.storageOf (ShelvesPage.shelfList Scenario.page).
Proof.
  intros H.
  apply (f_equal (fun l => match l with (v, _, _) :: _ => v | _ => JS.VUndef end)) in H.
  vm_compute in H. revert H. apply same_value_neq. reflexivity.
Qed.

(** C1, amended. Storage coordinates survive every sequence of patches of
    the context store ([setShelfCurrent], [markShelfFixed],
    [setRobotPosition], [updateTaskStatus]), and on the Shelves page every
    sequence of [shelf_location_update] merges and of [shelf_update]
    merges whose payloads carry none of [storage_x], [storage_y],
    [storage_yaw]: for each shelf the storage coordinates after the
    sequence are those before it. *)
Theorem storage_immutability :
  (forall (ps : list MapContext.Patch) (st : MapContext.MapState) (shelfId : string),
      MapContext.storageOf shelfId (MapContext.applyPatches ps st)
      = MapContext.storageOf shelfId st)
  /\ (forall (es : list ShelvesPage.Push) (st : ShelvesPage.PageState),
         Forall ShelvesPage.carriesNoStorage es ->
         map ShelvesPage.storageOf (ShelvesPage.shelfList (ShelvesPage.onPushes es st))
         = map ShelvesPage.storageOf (ShelvesPage.shelfList st)
         /\ ShelvesPage.storageOf <$> ShelvesPage.selectedShelf (ShelvesPage.onPushes es st)
            = ShelvesPage.storageOf <$> ShelvesPage.selectedShelf st).
Proof.
  split.
  - intros ps st shelfId. apply applyPatches_storage.
  - intros es st H. by apply onPushes_storage.
Qed.

Lemma storage_immutability_witness :
  map ShelvesPage.storageOf
      (ShelvesPage.shelfList
         (ShelvesPage.onPushes [Scenario.push_location; Scenario.push_metadata] Scenario.page))
  = [(JS.VNum 100, JS.VNum 150, JS.VUndef)].
Proof.
  destruct storage_immutability as [_ H].
  destruct (H [Scenario.push_location; Scenario.push_metadata] Scenario.page) as [-> _].
  - repeat constructor.
  - reflexivity.
Defined.

(* ===================================================================== *)
(** * The admin storage-set flows *)
(* ===================================================================== *)

Section StorageFlows.
Import Flow MapApi.
Context `{JS.Host}.

(** The edit form of the Shelves page with storage (200,250) for a shelf
    stored at (100,150): the request goes out, and no dialog precedes it. *)
Lemma handleSubmit_storage_example (res : Response JS.JsObj) :
  snd (ShelvesPage.handleSubmit_storage Scenario.form Scenario.S1_row res)
  = [PutShelfStorage "S1" 200 250 0].
Proof. destruct res; reflexivity. Qed.

(** [handleSubmit] sends the request exactly when the form's storage
    differs from the shelf's and both coordinates are given and are
    numbers. *)
Lemma handleSubmit_storage_trace (formData : ShelvesPage.FormData)
    (editingShelf : JS.JsObj) (res : Response JS.JsObj) :
  snd (ShelvesPage.handleSubmit_storage formData editingShelf res)
  = if ShelvesPage.storageLocChanged formData editingShelf
       && JS.defined (ShelvesPage.storage_x formData)
       && JS.defined (ShelvesPage.storage_y formData)
       && negb (PrimFloat.is_nan (JS.Number (ShelvesPage.storage_x formData)))
       && negb (PrimFloat.is_nan (JS.Number (ShelvesPage.storage_y formData)))
    then [PutShelfStorage (JS.String (JS.get editingShelf "id"))
            (JS.Number (ShelvesPage.storage_x formData))
            (JS.Number (ShelvesPage.storage_y formData))
            (ShelvesPage.num_or (JS.Number (ShelvesPage.storage_yaw formData)) 0)]
    else [].
Proof.
  unfold ShelvesPage.handleSubmit_storage, Api.setStorageLocation.
  destruct (ShelvesPage.storageLocChanged formData editingShelf
            && JS.defined (ShelvesPage.storage_x formData)
            && JS.defined (ShelvesPage.storage_y formData)); [|reflexivity].
  cbn.
  destruct (PrimFloat.is_nan (JS.Number (ShelvesPage.storage_x formData))); [reflexivity|].
  destruct (PrimFloat.is_nan (JS.Number (ShelvesPage.storage_y formData))); [reflexivity|].
  destruct res; reflexivity.
Qed.

End StorageFlows.

(** C3 fails as stated: not every path that changes a shelf's storage
    position asks for confirmation. Saving the edit form of the Shelves
    page with storage (200,250) for shelf S1, stored at (100,150), sends
    the set-storage request although no confirmation was asked for, let
    alone given. *)
Lemma storage_request_without_confirmation :
  ~ (forall (H : JS.Host) (formData : ShelvesPage.FormData) (editingShelf : JS.JsObj)
            (res : Flow.Response JS.JsObj),
        Flow.gated false (snd (ShelvesPage.handleSubmit_storage formData editingShelf res))
        = true).
Proof.
  intros Hclaim.
  specialize (Hclaim Scenario.host Scenario.form Scenario.S1_row (Flow.Rejected "offline")).
  rewrite handleSubmit_storage_example in Hclaim. discriminate.
Qed.

(** C3, amended. In the shelf details panel the storage position changes
    only behind the confirmation dialog: [handleSetStorage] asks first; on
    a declined dialog it stops, having sent nothing and with the store as
    it was; on an accepted one it sends one set-storage request for the
    shelf with the form's coordinates and, if the backend accepts, puts
    the record the backend returned into the store under that record's id,
    so that storage and current position are then the backend's; if the
    request fails the store is as it was. *)
Theorem handleSetStorage_gate
    (shelf : ShelfMap.t) (res : Flow.Response ShelfMap.t)
    (p : ShelfDetailsPanel.Panel) (st : MapContext.MapState) :
  (* declined *)
  ShelfDetailsPanel.handleSetStorage shelf false res p st
  = (ShelfDetailsPanel.mkPanel (ShelfDetailsPanel.isRestoring p)
       (ShelfDetailsPanel.showStorageForm p) (ShelfDetailsPanel.storageCoords p) None None,
     st, [Flow.Confirm ShelfDetailsPanel.confirmText false])
  (* accepted: the trace *)
  /\ snd (ShelfDetailsPanel.handleSetStorage shelf true res p st)
     = [Flow.Confirm ShelfDetailsPanel.confirmText true;
        Flow.PutShelfStorage (ShelfMap.id shelf)
          (ShelfDetailsPanel.storage_x (ShelfDetailsPanel.storageCoords p))
          (ShelfDetailsPanel.storage_y (ShelfDetailsPanel.storageCoords p))
          (ShelfDetailsPanel.storage_yaw (ShelfDetailsPanel.storageCoords p))]
  (* accepted: the store *)
  /\ snd (fst (ShelfDetailsPanel.handleSetStorage shelf true res p st))
     = match MapApi.setShelfStorage res with
       | MapApi.Fulfilled updated =>
           MapContext.mkState (MapContext.tasks st)
             (<[ShelfMap.id updated := updated]> (MapContext.shelves st))
             (MapContext.robots st)
       | MapApi.Failed _ => st
       end
  (* either way, no request without a confirmation before it *)
  /\ (forall answer,
         Flow.gated false (snd (ShelfDetailsPanel.handleSetStorage shelf answer res p st))
         = true).
Proof.
  split; [reflexivity|]. split; [|split].
  - unfold ShelfDetailsPanel.handleSetStorage. cbn.
    destruct (MapApi.setShelfStorage res); reflexivity.
  - unfold ShelfDetailsPanel.handleSetStorage. cbn.
    destruct (MapApi.setShelfStorage res); reflexivity.
  - intros [|]; unfold ShelfDetailsPanel.handleSetStorage; cbn;
      [destruct (MapApi.setShelfStorage res)|]; reflexivity.
Qed.

(** With the backend's record in the store, the current position of the
    shelf is the backend's too: it is not kept from before. *)
Lemma handleSetStorage_installs_backend_record :
  MapContext.shelves
    (snd (fst (ShelfDetailsPanel.handleSetStorage Scenario.S1 true (Flow.Ok Scenario.S1_moved)
                 Scenario.panel Scenario.store))) !! "S1"
  = Some Scenario.S1_moved.
Proof. reflexivity. Qed.

(* ===================================================================== *)
(** * The derived fact "at storage" *)
(* ===================================================================== *)

(** C8 fails as stated: the panel compares with [!==], without a
    tolerance. With S1's current x one unit in the last place above its
    storage x of 100 (a distance of 2^-46), the shelf is within that
    epsilon of its storage position, yet the panel finds it displaced and
    offers the Restore button. *)
Lemma isAtStorage_has_no_tolerance :
  Wording.isAtStorage_within 0x1p-46 Scenario.S1_nudged = true
  /\ ShelfDetailsPanel.isAtStorage Scenario.S1_nudged = false
  /\ ShelfDetailsPanel.restoreButtonRendered Scenario.panel_closed Scenario.S1_nudged = true.
Proof. repeat split. Qed.

Lemma isAtStorage_exact_aux (shelf : ShelfMap.t) :
  ShelfDetailsPanel.isAtStorage shelf
  = PrimFloat.eqb (Coordinates.x (ShelfMap.current shelf))
                  (Coordinates.x (ShelfMap.storage shelf))
    && PrimFloat.eqb (Coordinates.y (ShelfMap.current shelf))
                     (Coordinates.y (ShelfMap.storage shelf))
  /\ ShelfDetailsPanel.isDifferent shelf = negb (ShelfDetailsPanel.isAtStorage shelf).
Proof.
  unfold ShelfDetailsPanel.isAtStorage, ShelfDetailsPanel.isDifferent.
  rewrite negb_involutive. split; [|reflexivity].
  rewrite negb_orb, !negb_involutive. reflexivity.
Qed.

(** C8, amended. The panel takes a shelf to be at storage exactly when
    its current x equals its storage x and its current y equals its storage
    y as numbers ([===], no tolerance; yaw is not compared), and it renders
    the Restore button exactly when the storage form is hidden and the
    shelf is not at storage. *)
Theorem isAtStorage_exact (p : ShelfDetailsPanel.Panel) (shelf : ShelfMap.t) :
  ShelfDetailsPanel.isAtStorage shelf
  = PrimFloat.eqb (Coordinates.x (ShelfMap.current shelf))
                  (Coordinates.x (ShelfMap.storage shelf))
    && PrimFloat.eqb (Coordinates.y (ShelfMap.current shelf))
                     (Coordinates.y (ShelfMap.storage shelf))
  /\ ShelfDetailsPanel.restoreButtonRendered p shelf
     = negb (ShelfDetailsPanel.showStorageForm p)
       && negb (ShelfDetailsPanel.isAtStorage shelf).
Proof.
  destruct (isAtStorage_exact_aux shelf) as [E D]. split; [exact E|].
  unfold ShelfDetailsPanel.restoreButtonRendered. by rewrite D.
Qed.

(** A shelf that has never moved is at storage, provided its coordinates
    are numbers: [NaN !== NaN]. *)
Lemma isAtStorage_same_coordinates (shelf : ShelfMap.t) :
  ShelfMap.current shelf = ShelfMap.storage shelf ->
  ShelfDetailsPanel.isAtStorage shelf
  = negb (PrimFloat.is_nan (Coordinates.x (ShelfMap.storage shelf)))
    && negb (PrimFloat.is_nan (Coordinates.y (ShelfMap.storage shelf))).
Proof.
  intros E. destruct (isAtStorage_exact_aux shelf) as [-> _]. rewrite E.
  unfold PrimFloat.is_nan. by rewrite !negb_involutive.
Qed.

(* ===================================================================== *)
(** * Numeric coercion of inbound payloads *)
(* ===================================================================== *)

Section Coercion.
Import JS.
Context `{Host}.

Lemma coerceKey_lookup_ne (out : JsObj) (k k' : string) :
  k <> k' -> Api.coerceKey out k' !! k = out !! k.
Proof.
  intros Hne. unfold Api.coerceKey.
  destruct (negb (nullish (get out k'))); [|reflexivity].
  destruct (negb (PrimFloat.is_nan (Number (get out k')))); [|reflexivity].
  by apply lookup_insert_ne.
Qed.

Lemma coerceKey_lookup_eq (out : JsObj) (k : string) :
  Api.coerceKey out k !! k
  = if negb (nullish (get out k)) && negb (PrimFloat.is_nan (Number (get out k)))
    then Some (VNum (Number (get out k))) else out !! k.
Proof.
  unfold Api.coerceKey.
  destruct (negb (nullish (get out k))); [|reflexivity].
  destruct (negb (PrimFloat.is_nan (Number (get out k)))); [|reflexivity].
  apply lookup_insert_eq.
Qed.

Lemma coerce_loop_other (ks : list string) (out : JsObj) (k : string) :
  k ∉ ks -> foldl Api.coerceKey out ks !! k = out !! k.
Proof.
  revert out. induction ks as [|k' ks IH]; intros out Hk; [reflexivity|].
  apply not_elem_of_cons in Hk as [Hne Hk]. cbn.
  rewrite IH by done. by apply coerceKey_lookup_ne.
Qed.

Lemma coerce_loop_key (ks : list string) (out : JsObj) (k : string) :
  NoDup ks -> k ∈ ks ->
  foldl Api.coerceKey out ks !! k
  = if negb (nullish (get out k)) && negb (PrimFloat.is_nan (Number (get out k)))
    then Some (VNum (Number (get out k))) else out !! k.
Proof.
  revert out. induction ks as [|k' ks IH]; intros out Hnd Hk.
  - by apply elem_of_nil in Hk.
  - apply NoDup_cons in Hnd as [Hk' Hnd]. cbn.
    destruct (decide (k = k')) as [->|Hne].
    + rewrite coerce_loop_other by done. apply coerceKey_lookup_eq.
    + apply elem_of_cons in Hk as [?|Hk]; [done|].
      rewrite IH by done. unfold get. by rewrite coerceKey_lookup_ne.
Qed.

Lemma numericKeys_NoDup : NoDup Api.numericKeys.
Proof. apply (bool_decide_unpack _). vm_compute. reflexivity. Qed.

Lemma renameId_lookup (o : JsObj) (k : string) :
  k <> "id" -> k <> "_id" -> Api.renameId o !! k = o !! k.
Proof.
  intros H1 H2. unfold Api.renameId.
  destruct (truthy (get o "_id")); [|reflexivity].
  rewrite lookup_delete_ne by done. by rewrite lookup_insert_ne.
Qed.

Lemma numericKeys_not_id (k : string) : k ∈ Api.numericKeys -> k <> "id" /\ k <> "_id".
Proof.
  intros Hin. split; intros ->; revert Hin;
    apply (bool_decide_unpack _); vm_compute; reflexivity.
Qed.

(** What [sanitizeDoc] leaves under a numeric key. *)
Lemma sanitizeDoc_numeric_key (o : JsObj) (k : string) :
  k ∈ Api.numericKeys ->
  exists out, Api.sanitizeDoc (Api.DObj o) = Api.DObj out
    /\ out !! k
       = if negb (nullish (get o k)) && negb (PrimFloat.is_nan (Number (get o k)))
         then Some (VNum (Number (get o k))) else o !! k.
Proof.
  intros Hk. eexists. split; [reflexivity|].
  destruct (numericKeys_not_id k Hk) as [H1 H2].
  rewrite coerce_loop_key by (apply numericKeys_NoDup || done).
  unfold get. by rewrite !renameId_lookup.
Qed.

Lemma numberOrKeep_undefined (data r : JsObj) (k : string) :
  get data k = VUndef -> WarehouseMap.numberOrKeep data r k = get r k.
Proof. intros E. unfold WarehouseMap.numberOrKeep. by rewrite E. Qed.

Lemma position_undefined (data r : JsObj) (a b k : string) :
  get data a = VUndef -> get data b = VUndef -> RobotsPage.position data r a b k = get r k.
Proof. intros Ea Eb. unfold RobotsPage.position. by rewrite Ea, Eb. Qed.

Lemma get_insert_eq (o : JsObj) (k : string) (v : JsVal) : get (<[k := v]> o) k = v.
Proof. unfold get. by rewrite lookup_insert_eq. Qed.

Lemma get_insert_ne (o : JsObj) (k k' : string) (v : JsVal) :
  k' <> k -> get (<[k' := v]> o) k = get o k.
Proof. intros Hne. unfold get. by rewrite lookup_insert_ne. Qed.

(** The Robots page keeps a field of a robot whose payload properties
    are all undefined. *)
Lemma Robots_telemetry_keeps (data r : JsObj) (k : string) (srcs : list string) :
  (k, srcs) ∈ RobotsPage.sources ->
  Forall (fun a => get data a = VUndef) srcs ->
  get (RobotsPage.telemetryPatch data r) k = get r k.
Proof.
  unfold RobotsPage.sources. intros Hin Hsrc.
  repeat (apply elem_of_cons in Hin as [Hin|Hin];
          [injection Hin as -> ->;
           repeat match goal with
                  | Hf : Forall _ (_ :: _) |- _ => apply Forall_cons in Hf as [? Hf]
                  end;
           unfold RobotsPage.telemetryPatch;
           repeat (rewrite get_insert_ne by discriminate);
           rewrite get_insert_eq;
           first [ by apply position_undefined
                 | by apply numberOrKeep_undefined
                 | by match goal with E : get data "status" = _ |- _ => rewrite E end ]
          |]).
  by apply elem_of_nil in Hin.
Qed.

(** The map page ignores telemetry that lacks a robot id, an x or a y. *)
Lemma WarehouseMap_telemetry_dropped (data : JsObj) (prev : option WarehouseMap.MapData) :
  truthy (or_else (or_else (get data "robot_id") (get data "robot")) (get data "id")) = false
  \/ (get data "x" = VUndef /\ get data "current_x" = VUndef)
  \/ (get data "y" = VUndef /\ get data "current_y" = VUndef) ->
  WarehouseMap.onTelemetry data prev = prev.
Proof.
  unfold WarehouseMap.onTelemetry. intros [E|[[Ea Eb]|[Ea Eb]]].
  - by rewrite E.
  - rewrite Ea. cbn. rewrite Eb. cbn. by rewrite andb_false_r.
  - rewrite Ea. cbn. rewrite Eb. cbn. by rewrite andb_false_r.
Qed.

(** Telemetry whose x is [null] puts 0 in place of the robot's x = 5. *)
Lemma Robots_telemetry_null_x :
  map (fun r => get r "x") (RobotsPage.onTelemetry Scenario.telemetry_null_x [Scenario.r1_row])
  = [VNum 0].
Proof. reflexivity. Qed.

End Coercion.

(** C5 fails as stated: a non-numeric field is not always dropped. On the
    Robots page, telemetry for robot r1 whose x is [null] is written as
    [Number(null) = 0] over the robot's x of 5. *)
Lemma null_position_is_coerced_to_zero :
  ~ (forall (H : JS.Host) (data r : JS.JsObj),
        RobotsPage.isMatch data r = true ->
        Wording.numeric (JS.get data "x") = false ->
        Wording.numeric (JS.get data "current_x") = false ->
        JS.get (RobotsPage.telemetryPatch data r) "x" = JS.get r "x").
Proof.
  intros Hclaim.
  specialize (Hclaim Scenario.host Scenario.telemetry_null_x Scenario.r1_row eq_refl eq_refl eq_refl).
  revert Hclaim. apply same_value_neq. reflexivity.
Qed.

(** C5, amended. [sanitizeDoc] converts each of its numeric fields with
    [Number] and stores the result only when it is not [NaN]; a field that
    is missing, [undefined] or [null], or whose conversion is [NaN], is
    left exactly as it was. The telemetry handler of the Robots page keeps
    the robot's value of every field whose payload properties are all
    undefined, and the telemetry handler of the map page leaves the map
    data as it is when the payload has no robot id, no x or no y. *)
Theorem numeric_coercion `{JS.Host} :
  (forall (o : JS.JsObj) (k : string),
      k ∈ Api.numericKeys ->
      exists out, Api.sanitizeDoc (Api.DObj o) = Api.DObj out
        /\ out !! k
           = if negb (JS.nullish (JS.get o k))
                && negb (PrimFloat.is_nan (JS.Number (JS.get o k)))
             then Some (JS.VNum (JS.Number (JS.get o k))) else o !! k)
  /\ (forall (data r : JS.JsObj) (k : string) (srcs : list string),
         (k, srcs) ∈ RobotsPage.sources ->
         Forall (fun a => JS.get data a = JS.VUndef) srcs ->
         JS.get (RobotsPage.telemetryPatch data r) k = JS.get r k)
  /\ (forall (data : JS.JsObj) (prev : option WarehouseMap.MapData),
         JS.truthy (JS.or_else (JS.or_else (JS.get data "robot_id") (JS.get data "robot"))
                               (JS.get data "id")) = false
         \/ (JS.get data "x" = JS.VUndef /\ JS.get data "current_x" = JS.VUndef)
         \/ (JS.get data "y" = JS.VUndef /\ JS.get data "current_y" = JS.VUndef) ->
         WarehouseMap.onTelemetry data prev = prev).
Proof.
  split; [|split].
  - apply sanitizeDoc_numeric_key.
  - apply Robots_telemetry_keeps.
  - apply WarehouseMap_telemetry_dropped.
Qed.

Lemma numeric_coercion_witness :
  (exists out, Api.sanitizeDoc (H := Scenario.host) (Api.DObj Scenario.shelf_doc) = Api.DObj out
     /\ out !! "current_y" = Some JS.VNull)
  /\ JS.get (RobotsPage.telemetryPatch (H := Scenario.host)
               Scenario.telemetry_battery Scenario.r1_row) "x" = JS.VNum 5
  /\ WarehouseMap.onTelemetry (H := Scenario.host)
       Scenario.telemetry_battery (Some Scenario.map_data) = Some Scenario.map_data.
Proof.
  destruct (numeric_coercion (H := Scenario.host)) as (Hdoc & Hkeep & Hdrop).
  split; [|split].
  - apply (Hdoc Scenario.shelf_doc "current_y").
    apply (bool_decide_unpack _). vm_compute. reflexivity.
  - apply (Hkeep Scenario.telemetry_battery Scenario.r1_row "x" ["x"; "current_x"]).
    + apply (bool_decide_unpack _). vm_compute. reflexivity.
    + repeat constructor.
  - apply Hdrop. right. left. split; reflexivity.
Defined.

(* ===================================================================== *)
(** * The callback registry *)
(* ===================================================================== *)

Section RegistryFacts.
Import JS WebSocket.
Context {App : Type}.

Lemma guarded_forEach (eventName : string) (data : JsObj) (cbs : list (Callback App))
    (rt : Runtime App) :
  forEach (fun cb =>
             try_catch (invoke cb data)
               (fun e => console_error
                           ("Error invoking callback for " ++ eventName ++ ":")%string e))
          cbs rt
  = (Normal tt,
     mkRuntime (callbackRegistry rt) (effects data cbs (app rt))
               (console rt ++ errors eventName data cbs (app rt))
               (called rt ++ map ref cbs)).
Proof.
  revert rt. induction cbs as [|cb cbs IH]; intros rt.
  - destruct rt. cbn. by rewrite !app_nil_r.
  - cbn [forEach]. unfold bind at 1. unfold try_catch at 1. unfold invoke at 1.
    unfold effects. cbn [foldl errors map].
    destruct (call cb data (app rt)) as [[[]|e] a'] eqn:E.
    + rewrite IH. cbn. by rewrite <- app_assoc.
    + unfold console_error at 1. rewrite IH. cbn. by rewrite <- !app_assoc.
Qed.

(** Without the guard the first exception ends the fan-out: the
    callbacks behind the one that throws are not called. *)
Lemma unguarded_forEach_throw (data : JsObj) (cb : Callback App) (cbs : list (Callback App))
    (rt : Runtime App) (e : JsVal) (a' : App) :
  call cb data (app rt) = (Throw e, a') ->
  forEach (fun cb => invoke cb data) (cb :: cbs) rt
  = (Throw e, mkRuntime (callbackRegistry rt) a' (console rt) (called rt ++ [ref cb])).
Proof. intros E. cbn. unfold bind, invoke. by rewrite E. Qed.

End RegistryFacts.

(** C7. Event-dispatch isolation: for every event name, payload and
    registry, whichever callbacks throw, [invokeCallbacks] completes
    normally; every callback registered for the event has been called,
    once and in registration order, the ones behind a throwing callback
    included; each exception is on the console; and the registry is as it
    was. *)
Theorem invokeCallbacks_isolated {App : Type}
    (eventName : string) (data : JS.JsObj) (rt : WebSocket.Runtime App) :
  let cbs := default [] (WebSocket.callbackRegistry rt !! eventName) in
  WebSocket.invokeCallbacks eventName data rt
  = (WebSocket.Normal tt,
     WebSocket.mkRuntime
       (WebSocket.callbackRegistry rt)
       (WebSocket.effects data cbs (WebSocket.app rt))
       (WebSocket.console rt ++ WebSocket.errors eventName data cbs (WebSocket.app rt))
       (WebSocket.called rt ++ map WebSocket.ref cbs)).
Proof.
  cbn. unfold WebSocket.invokeCallbacks.
  destruct (WebSocket.callbackRegistry rt !! eventName) as [cbs|]; cbn.
  - apply guarded_forEach.
  - destruct rt. cbn. by rewrite !app_nil_r.
Qed.

(** The two subscribers of the scenario: the first throws, the second
    still counts the event; without the guard it would not. *)
Lemma invokeCallbacks_example :
  WebSocket.invokeCallbacks "telemetry" ∅ Scenario.runtime
  = (WebSocket.Normal tt,
     WebSocket.mkRuntime (WebSocket.callbackRegistry Scenario.runtime) 1
       [("Error invoking callback for telemetry:", JS.VStr "boom")] [1; 2])
  /\ WebSocket.invokeCallbacks_unguarded "telemetry" ∅ Scenario.runtime
     = (WebSocket.Throw (JS.VStr "boom"),
        WebSocket.mkRuntime (WebSocket.callbackRegistry Scenario.runtime) 0 [] [1]).
Proof. split; reflexivity. Qed.

(* ===================================================================== *)
(** * The singleton connection *)
(* ===================================================================== *)

(** C10. [connectWebSocket] with a socket in place returns that socket
    and changes nothing: no socket is created and no listener is attached;
    so connecting twice is connecting once, whatever the surroundings are
    at the second call. *)
Theorem connectWebSocket_singleton (env env' : WebSocket.Env) (c : WebSocket.Conn) :
  (forall (s : nat) (sockets : list WebSocket.SocketObj),
      WebSocket.connectWebSocket env (WebSocket.mkConn (Some s) sockets)
      = (s, WebSocket.mkConn (Some s) sockets))
  /\ WebSocket.connectWebSocket env' (snd (WebSocket.connectWebSocket env c))
     = WebSocket.connectWebSocket env c.
Proof.
  split; [reflexivity|].
  unfold WebSocket.connectWebSocket. destruct c as [[s|] sockets]; reflexivity.
Qed.

(** The first call on a fresh module does open a connection, with the
    module's listeners attached. *)
Lemma connectWebSocket_first (env : WebSocket.Env) (sockets : list WebSocket.SocketObj) :
  WebSocket.connectWebSocket env (WebSocket.mkConn None sockets)
  = (length sockets,
     WebSocket.mkConn (Some (length sockets)) (sockets ++ [WebSocket.newSocket env])).
Proof. reflexivity. Qed.

(** After [disconnectWebSocket] the next call connects anew. *)
Lemma connectWebSocket_after_disconnect (env : WebSocket.Env) (c : WebSocket.Conn) :
  WebSocket.socket (WebSocket.disconnectWebSocket c) = None
  /\ length (WebSocket.sockets
               (snd (WebSocket.connectWebSocket env (WebSocket.disconnectWebSocket c))))
     = S (length (WebSocket.sockets c)).
Proof.
  unfold WebSocket.disconnectWebSocket, WebSocket.connectWebSocket.
  destruct c as [[s|] sockets]; cbn.
  - split; [reflexivity|]. rewrite length_app, length_alter. cbn. lia.
  - split; [reflexivity|]. rewrite length_app. cbn. lia.
Qed.

(* ===================================================================== *)
(** * The reconnect delay *)
(* ===================================================================== *)

Section Backoff.
Import UseTaskSocket.

(** The doubles computed for the first 2100 counts are those of the
    formula. *)
Lemma delay_agrees_checked :
  forallb Wording.delay_agrees (map N.of_nat (seq 0 2100)) = true.
Proof. vm_compute. reflexivity. Qed.

Lemma delay_formula_below (n : N) :
  (n < 2100)%N -> getReconnectDelay n = ofZ (Wording.delay_formula n).
Proof.
  intros Hn. apply FloatAxioms.Leibniz.eqb_spec.
  pose proof delay_agrees_checked as Hall.
  rewrite forallb_forall in Hall. apply (Hall n).
  apply in_map_iff. exists (N.to_nat n). split; [apply N2Nat.id|].
  apply in_seq. lia.
Qed.

(** Beyond the exponent range [ldexp] receives the same clamped
    exponent, and the power is [Infinity]. *)
Lemma delay_clamped (n : N) :
  (2098 <= n)%N -> getReconnectDelay n = getReconnectDelay 2098.
Proof.
  intros Hn. unfold getReconnectDelay, Math_pow2, Z.ldexp.
  replace (Z.max (Z.min (Z.of_N n) (emax - emin)) (emin - emax - 1))
    with (emax - emin)%Z; [reflexivity|].
  unfold emax, SpecFloat.emin, prec. lia.
Qed.

Lemma delay_formula_capped (n : N) : (5 <= n)%N -> Wording.delay_formula n = 30000%Z.
Proof.
  intros Hn. unfold Wording.delay_formula. apply Z.min_r.
  assert (2 ^ 5 <= 2 ^ Z.of_N n)%Z by (apply Z.pow_le_mono_r; lia).
  lia.
Qed.

Lemma delay_is_formula (n : N) : getReconnectDelay n = ofZ (Wording.delay_formula n).
Proof.
  destruct (N.lt_ge_cases n 2100) as [Hn|Hn]; [by apply delay_formula_below|].
  rewrite delay_clamped by lia. rewrite delay_formula_below by lia.
  by rewrite !delay_formula_capped by lia.
Qed.

Lemma delay_capped (n : N) : (5 <= n)%N -> getReconnectDelay n = 30000%float.
Proof.
  intros Hn. rewrite delay_is_formula, delay_formula_capped by done. reflexivity.
Qed.

Lemma below_five (n : N) : (n < 5)%N -> n = 0%N \/ n = 1%N \/ n = 2%N \/ n = 3%N \/ n = 4%N.
Proof. lia. Qed.

Lemma delay_bounded (n : N) : PrimFloat.leb (getReconnectDelay n) 30000 = true.
Proof.
  destruct (N.lt_ge_cases n 5) as [Hn|Hn].
  - destruct (below_five n Hn) as [->|[->|[->|[->| ->]]]]; reflexivity.
  - by rewrite delay_capped.
Qed.

Lemma delay_monotone (n m : N) :
  (n <= m)%N -> PrimFloat.leb (getReconnectDelay n) (getReconnectDelay m) = true.
Proof.
  intros Hnm. destruct (N.lt_ge_cases m 5) as [Hm|Hm].
  - destruct (below_five m Hm) as [->|[->|[->|[->| ->]]]];
      (destruct (below_five n ltac:(lia)) as [->|[->|[->|[->| ->]]]];
       first [reflexivity | exfalso; lia]).
  - rewrite (delay_capped m) by done. apply delay_bounded.
Qed.

End Backoff.

(** C9. Reconnect backoff: for every attempt count [n >= 0] the delay is
    min(1000 * 2^n, 30000) milliseconds; it never exceeds 30000 and never
    decreases as the count grows. *)
Theorem getReconnectDelay_backoff (n : N) :
  UseTaskSocket.getReconnectDelay n
  = UseTaskSocket.ofZ (Z.min (1000 * 2 ^ Z.of_N n) 30000)
  /\ PrimFloat.leb (UseTaskSocket.getReconnectDelay n) 30000 = true
  /\ (forall m : N, (n <= m)%N ->
        PrimFloat.leb (UseTaskSocket.getReconnectDelay n)
                      (UseTaskSocket.getReconnectDelay m) = true).
Proof.
  split; [apply delay_is_formula|]. split; [apply delay_bounded|].
  intros m. apply delay_monotone.
Qed.

Lemma getReconnectDelay_backoff_witness :
  UseTaskSocket.getReconnectDelay 3 = 8000%float
  /\ PrimFloat.leb (UseTaskSocket.getReconnectDelay 3) (UseTaskSocket.getReconnectDelay 7) = true.
Proof.
  destruct (getReconnectDelay_backoff 3) as (Hval & _ & Hmono).
  split.
  - rewrite Hval. reflexivity.
  - apply (Hmono 7%N). lia.
Defined.

(* ===================================================================== *)
(** * More on the context store *)
(* ===================================================================== *)

Section StoreFacts.
Import MapContext.

Lemma insert_known_dom {A} (m : gmap string A) (i : string) (x : A) :
  is_Some (m !! i) -> dom (<[i := x]> m) = dom m.
Proof.
  intros Hi. rewrite dom_insert_L. apply elem_of_dom in Hi.
  apply subseteq_union_1_L. by apply singleton_subseteq_l.
Qed.

Lemma applyPatch_dom (p : Patch) (st : MapState) :
  dom (shelves (applyPatch p st)) = dom (shelves st)
  /\ dom (robots (applyPatch p st)) = dom (robots st)
  /\ dom (tasks (applyPatch p st)) = dom (tasks st).
Proof.
  destruct p as [i x y ls|i|i x y|i s]; cbn.
  - destruct (shelves st !! i) eqn:E; [|done]. by rewrite insert_known_dom by eauto.
  - destruct (shelves st !! i) eqn:E; [|done]. by rewrite insert_known_dom by eauto.
  - destruct (robots st !! i) eqn:E; [|done]. by rewrite insert_known_dom by eauto.
  - destruct (tasks st !! i) eqn:E; [|done]. by rewrite insert_known_dom by eauto.
Qed.

Lemma fromArray_lookup_last {A} (key : A -> string) (xs : list A) (k : string) :
  fromArray key xs !! k = last (List.filter (fun x => String.eqb (key x) k) xs).
Proof.
  induction xs as [|x xs IH] using rev_ind; [done|].
  rewrite fromArray_snoc_lookup, List.filter_app. cbn.
  case_decide as Hk.
  - apply String.eqb_eq in Hk. rewrite Hk. by rewrite last_snoc.
  - apply String.eqb_neq in Hk. rewrite Hk. by rewrite app_nil_r.
Qed.

Lemma patchAt_commute {A} (f g : A -> A) (i j : string) (m : gmap string A) :
  i <> j -> patchAt f i (patchAt g j m) = patchAt g j (patchAt f i m).
Proof.
  intros Hij. unfold patchAt.
  destruct (m !! j) as [w|] eqn:Ej, (m !! i) as [v|] eqn:Ei;
    rewrite ?lookup_insert_ne by done; rewrite ?Ei, ?Ej; try reflexivity.
  by apply insert_insert_ne.
Qed.

(** Each patch is an update in place of one record of one collection. *)
Lemma applyPatch_patchAt (p : Patch) (st : MapState) :
  applyPatch p st
  = match p with
    | PSetShelfCurrent i x y ls =>
        setShelvesState (patchAt (fun shelf =>
          ShelfMap.mk (ShelfMap.id shelf) (ShelfMap.warehouse_id shelf)
            (ShelfMap.storage shelf)
            (Coordinates.mk x y (Coordinates.yaw (ShelfMap.current shelf)))
            ls (ShelfMap.available shelf) (ShelfMap.status shelf)) i) st
    | PMarkShelfFixed i =>
        setShelvesState (patchAt (fun shelf =>
          ShelfMap.mk (ShelfMap.id shelf) (ShelfMap.warehouse_id shelf)
            (ShelfMap.storage shelf) (ShelfMap.current shelf)
            (ShelfMap.location_status shelf)
            (ShelfMap.available shelf) ShelfMap.IDLE) i) st
    | PSetRobotPosition i x y =>
        setRobotsState (patchAt (fun robot =>
          Robot.mk (Robot.id robot) x y (Robot.status robot)
                   (Robot.battery robot) (Robot.timestamp robot)) i) st
    | PUpdateTaskStatus i status =>
        setTasksState (patchAt (fun task =>
          TaskMapView.mk (TaskMapView.task_id task) status (TaskMapView.task_type task)
            (TaskMapView.robot task) (TaskMapView.shelf task)
            (TaskMapView.drop_zone task) (TaskMapView.priority task)
            (TaskMapView.created_at task) (TaskMapView.updated_at task)) i) st
    end.
Proof. destruct p; reflexivity. Qed.

End StoreFacts.

(** X1. The patches of the store keep its key sets: whatever sequence of
    [setShelfCurrent], [markShelfFixed], [setRobotPosition] and
    [updateTaskStatus] calls is applied, the ids of the shelves, robots and
    tasks in the store are those from before; no record appears and none is
    lost. *)
Theorem patches_keep_ids (ps : list MapContext.Patch) (st : MapContext.MapState) :
  dom (MapContext.shelves (MapContext.applyPatches ps st)) = dom (MapContext.shelves st)
  /\ dom (MapContext.robots (MapContext.applyPatches ps st)) = dom (MapContext.robots st)
  /\ dom (MapContext.tasks (MapContext.applyPatches ps st)) = dom (MapContext.tasks st).
Proof.
  revert st. induction ps as [|p ps IH]; intros st; [done|].
  cbn. fold (MapContext.applyPatches ps (MapContext.applyPatch p st)).
  destruct (IH (MapContext.applyPatch p st)) as (-> & -> & ->).
  apply applyPatch_dom.
Qed.

(** X2. Installing and removing a shelf: [getShelf] after [setShelf]
    returns the record under its own id and leaves every other id as it
    was; after [removeShelf] the id is gone; and removing a shelf that was
    installed under a fresh id gives back the store from before. *)
Theorem setShelf_removeShelf (s : ShelfMap.t) (st : MapContext.MapState) :
  MapContext.getShelf (ShelfMap.id s) (MapContext.setShelf s st) = Some s
  /\ (forall i, i <> ShelfMap.id s ->
        MapContext.getShelf i (MapContext.setShelf s st) = MapContext.getShelf i st)
  /\ (forall i, MapContext.getShelf i (MapContext.removeShelf i st) = None)
  /\ (MapContext.getShelf (ShelfMap.id s) st = None ->
      MapContext.removeShelf (ShelfMap.id s) (MapContext.setShelf s st) = st).
Proof.
  unfold MapContext.getShelf, MapContext.setShelf, MapContext.removeShelf,
    MapContext.setShelvesState. cbn. repeat split.
  - apply lookup_insert_eq.
  - intros i Hi. by apply lookup_insert_ne.
  - intros i. apply lookup_delete_eq.
  - intros Hnone. destruct st as [ts ss rs]. cbn in *.
    by rewrite delete_insert_id.
Qed.

Lemma setShelf_removeShelf_witness :
  MapContext.removeShelf "S3"
    (MapContext.setShelf
       (ShelfMap.mk "S3" "warehouse-1" (Coordinates.mk 1 2 None) (Coordinates.mk 1 2 None)
                    "STORED" true ShelfMap.IDLE)
       Scenario.store)
  = Scenario.store.
Proof.
  apply (setShelf_removeShelf
           (ShelfMap.mk "S3" "warehouse-1" (Coordinates.mk 1 2 None) (Coordinates.mk 1 2 None)
                        "STORED" true ShelfMap.IDLE) Scenario.store).
  reflexivity.
Defined.

(** X3. What a bulk replace leaves in the store: under each id the last
    record of the snapshot with that id, and nothing under an id the
    snapshot does not have, whatever the store held before. *)
Theorem setShelves_contents (snapshot : list ShelfMap.t) (st : MapContext.MapState)
    (id : string) :
  MapContext.getShelf id (MapContext.setShelves snapshot st)
  = last (List.filter (fun s => String.eqb (ShelfMap.id s) id) snapshot).
Proof. cbn. apply fromArray_lookup_last. Qed.

(** X4. Position updates are last-write-wins: two [setShelfCurrent] calls
    for the same shelf leave the store that the second call alone leaves. *)
Theorem setShelfCurrent_last_wins (shelfId : string) (x1 y1 x2 y2 : float)
    (status1 status2 : string) (st : MapContext.MapState) :
  MapContext.setShelfCurrent shelfId x2 y2 status2
    (MapContext.setShelfCurrent shelfId x1 y1 status1 st)
  = MapContext.setShelfCurrent shelfId x2 y2 status2 st.
Proof.
  unfold MapContext.setShelfCurrent, MapContext.setShelvesState. cbn.
  destruct (MapContext.shelves st !! shelfId) as [shelf|] eqn:E; cbn.
  - rewrite lookup_insert_eq. cbn. by rewrite insert_insert_eq.
  - by rewrite E.
Qed.

(** X5. Restoring: after [setShelfCurrent] with the storage coordinates
    of a shelf of the store, the panel finds the shelf at storage and does
    not render the Restore button, provided the storage coordinates are
    numbers (not NaN). *)
Theorem restore_reaches_storage (shelfId : string) (shelf : ShelfMap.t)
    (st : MapContext.MapState) (p : ShelfDetailsPanel.Panel) :
  MapContext.getShelf shelfId st = Some shelf ->
  PrimFloat.is_nan (Coordinates.x (ShelfMap.storage shelf)) = false ->
  PrimFloat.is_nan (Coordinates.y (ShelfMap.storage shelf)) = false ->
  exists shelf',
    MapContext.getShelf shelfId
      (MapContext.setShelfCurrent shelfId
         (Coordinates.x (ShelfMap.storage shelf)) (Coordinates.y (ShelfMap.storage shelf))
         "RESTORED_TO_STORAGE" st) = Some shelf'
    /\ ShelfMap.storage shelf' = ShelfMap.storage shelf
    /\ ShelfDetailsPanel.isAtStorage shelf' = true
    /\ ShelfDetailsPanel.restoreButtonRendered p shelf' = false.
Proof.
  unfold MapContext.getShelf, MapContext.setShelfCurrent, MapContext.setShelvesState.
  intros Hs Hx Hy. cbn. rewrite Hs. eexists. split; [apply lookup_insert_eq|].
  unfold ShelfDetailsPanel.restoreButtonRendered, ShelfDetailsPanel.isAtStorage,
    ShelfDetailsPanel.isDifferent. cbn.
  unfold PrimFloat.is_nan in Hx, Hy.
  apply negb_false_iff in Hx, Hy. rewrite Hx, Hy. cbn.
  by rewrite andb_false_r.
Qed.

Lemma restore_reaches_storage_witness :
  exists shelf',
    MapContext.getShelf "S2"
      (MapContext.setShelfCurrent "S2" 300 150 "RESTORED_TO_STORAGE" Scenario.store)
    = Some shelf'
    /\ ShelfMap.storage shelf' = ShelfMap.storage Scenario.S2
    /\ ShelfDetailsPanel.isAtStorage shelf' = true
    /\ ShelfDetailsPanel.restoreButtonRendered Scenario.panel_closed shelf' = false.
Proof.
  apply (restore_reaches_storage "S2" Scenario.S2 Scenario.store Scenario.panel_closed);
    reflexivity.
Defined.

(** X6. Patches addressed to different records commute: applied in either
    order they leave the same store, so the arrival order of a robot
    position, a shelf position and a task status does not matter. *)
Theorem patches_commute (p q : MapContext.Patch) (st : MapContext.MapState) :
  MapContext.target p <> MapContext.target q ->
  MapContext.applyPatch p (MapContext.applyPatch q st)
  = MapContext.applyPatch q (MapContext.applyPatch p st).
Proof.
  intros Hpq. destruct st as [ts ss rs].
  destruct p as [i x y ls|i|i x y|i s], q as [j x' y' ls'|j|j x' y'|j s'];
    rewrite !applyPatch_patchAt; cbn; try reflexivity;
    (assert (i <> j) as Hij by (cbn in Hpq; congruence));
    unfold MapContext.setShelvesState, MapContext.setRobotsState,
      MapContext.setTasksState; cbn;
    by rewrite (patchAt_commute _ _ i j).
Qed.

Lemma patches_commute_witness :
  MapContext.setShelfCurrent "S1" 500 500 "AT_DROP_ZONE"
    (MapContext.markShelfFixed "S2" Scenario.store)
  = MapContext.markShelfFixed "S2"
      (MapContext.setShelfCurrent "S1" 500 500 "AT_DROP_ZONE" Scenario.store).
Proof.
  apply (patches_commute (MapContext.PSetShelfCurrent "S1" 500 500 "AT_DROP_ZONE")
                         (MapContext.PMarkShelfFixed "S2") Scenario.store).
  discriminate.
Defined.

(* ===================================================================== *)
(** * The restore action of the panel *)
(* ===================================================================== *)

(** X7. [handleRestore] never sends a set-storage request. For a shelf
    at storage it sends nothing and leaves the store alone; otherwise it
    sends one restore request, ends with [isRestoring] off, and the store
    is the old one with the backend's record installed, or the old one
    itself when the request fails. *)
Theorem handleRestore_behaviour (shelf : ShelfMap.t) (res : Flow.Response ShelfMap.t)
    (p : ShelfDetailsPanel.Panel) (st : MapContext.MapState) :
  Forall (fun e => Flow.isStorageRequest e = false)
         (snd (ShelfDetailsPanel.handleRestore shelf res p st))
  /\ (ShelfDetailsPanel.isAtStorage shelf = true ->
      snd (ShelfDetailsPanel.handleRestore shelf res p st) = []
      /\ snd (fst (ShelfDetailsPanel.handleRestore shelf res p st)) = st)
  /\ (ShelfDetailsPanel.isAtStorage shelf = false ->
      snd (ShelfDetailsPanel.handleRestore shelf res p st)
      = [Flow.PostShelfRestore (ShelfMap.id shelf)]
      /\ ShelfDetailsPanel.isRestoring (fst (fst (ShelfDetailsPanel.handleRestore shelf res p st)))
         = false
      /\ snd (fst (ShelfDetailsPanel.handleRestore shelf res p st))
         = match MapApi.restoreShelfToStorage res with
           | MapApi.Fulfilled updated => MapContext.setShelf updated st
           | MapApi.Failed _ => st
           end).
Proof.
  unfold ShelfDetailsPanel.handleRestore, ShelfDetailsPanel.isAtStorage.
  destruct (ShelfDetailsPanel.isDifferent shelf); cbn.
  - split; [|split; [discriminate|intros _]];
      destruct (MapApi.restoreShelfToStorage res); cbn; repeat constructor.
  - split; [constructor|]. split; [done|discriminate].
Qed.

Lemma handleRestore_behaviour_witness :
  snd (ShelfDetailsPanel.handleRestore Scenario.S1 (Flow.Ok Scenario.S1_moved)
         Scenario.panel_closed Scenario.store) = []
  /\ snd (ShelfDetailsPanel.handleRestore Scenario.S2 (Flow.Rejected "offline")
            Scenario.panel_closed Scenario.store)
     = [Flow.PostShelfRestore "S2"].
Proof.
  split.
  - apply (handleRestore_behaviour Scenario.S1 (Flow.Ok Scenario.S1_moved)
             Scenario.panel_closed Scenario.store). reflexivity.
  - apply (handleRestore_behaviour Scenario.S2 (Flow.Rejected "offline")
             Scenario.panel_closed Scenario.store). reflexivity.
Defined.

(* ===================================================================== *)
(** * More on the callback registry and the connection *)
(* ===================================================================== *)

Section SubscriptionFacts.
Import JS WebSocket.
Context {App : Type}.

Lemma set_add_refs (cb : Callback App) (s : list (Callback App)) :
  ref cb ∈ map ref (set_add cb s).
Proof.
  unfold set_add. destruct (existsb _ s) eqn:E.
  - apply existsb_exists in E as (c & Hc & Hr). apply Nat.eqb_eq in Hr.
    rewrite <- Hr. apply list_elem_of_In, in_map, Hc.
  - rewrite map_app. apply elem_of_app. right. cbn. apply list_elem_of_here.
Qed.

Lemma set_add_NoDup (cb : Callback App) (s : list (Callback App)) :
  NoDup (map ref s) -> NoDup (map ref (set_add cb s)).
Proof.
  intros Hs. unfold set_add. destruct (existsb _ s) eqn:E; [done|].
  rewrite map_app. apply NoDup_app. split; [done|]. split; [|apply NoDup_singleton].
  intros r Hr Hr'. cbn in Hr'. apply list_elem_of_singleton in Hr'. subst r.
  apply list_elem_of_In, in_map_iff in Hr as (c & Hc & Hin).
  assert (existsb (fun c => Nat.eqb (ref c) (ref cb)) s = true) as E'.
  { apply existsb_exists. exists c. split; [done|]. by apply Nat.eqb_eq. }
  congruence.
Qed.

Lemma set_add_idem (cb : Callback App) (s : list (Callback App)) :
  set_add cb (set_add cb s) = set_add cb s.
Proof.
  unfold set_add at 1.
  assert (existsb (fun c => Nat.eqb (ref c) (ref cb)) (set_add cb s) = true) as ->; [|done].
  pose proof (set_add_refs cb s) as Hin.
  apply list_elem_of_In, in_map_iff in Hin as (c & Hc & Hin).
  apply existsb_exists. exists c. split; [done|]. by apply Nat.eqb_eq.
Qed.

Lemma set_delete_refs (cb : Callback App) (s : list (Callback App)) :
  ref cb ∉ map ref (set_delete cb s).
Proof.
  unfold set_delete. intros Hin.
  apply list_elem_of_In, in_map_iff in Hin as (c & Hc & Hin).
  apply list_elem_of_In, list_elem_of_filter in Hin as [Hne _]. done.
Qed.

Lemma set_delete_fresh (cb : Callback App) (s : list (Callback App)) :
  ref cb ∉ map ref s -> set_delete cb s = s.
Proof.
  intros Hfresh. unfold set_delete. induction s as [|c s IH]; [done|].
  cbn in Hfresh. apply not_elem_of_cons in Hfresh as [Hne Hs].
  rewrite filter_cons_True by done. by rewrite IH.
Qed.

Lemma set_delete_add (cb : Callback App) (s : list (Callback App)) :
  ref cb ∉ map ref s -> set_delete cb (set_add cb s) = s.
Proof.
  intros Hfresh. unfold set_add.
  destruct (existsb _ s) eqn:E.
  - apply existsb_exists in E as (c & Hc & Hr). apply Nat.eqb_eq in Hr.
    exfalso. apply Hfresh. rewrite <- Hr. apply list_elem_of_In, in_map, Hc.
  - unfold set_delete. rewrite filter_app. fold (set_delete cb s).
    rewrite set_delete_fresh by done.
    rewrite filter_cons_False by (intros Hn; by apply Hn). by rewrite app_nil_r.
Qed.

(** [invokeCallbacks] in terms of the subscribers of the event. *)
Lemma invokeCallbacks_run (eventName : string) (data : JsObj) (rt : Runtime App) :
  invokeCallbacks eventName data rt
  = (Normal tt,
     mkRuntime (callbackRegistry rt)
       (effects data (subscribers rt eventName) (app rt))
       (console rt ++ errors eventName data (subscribers rt eventName) (app rt))
       (called rt ++ map ref (subscribers rt eventName))).
Proof.
  unfold invokeCallbacks, subscribers.
  destruct (callbackRegistry rt !! eventName) as [cbs|]; cbn.
  - apply guarded_forEach.
  - destruct rt. cbn. by rewrite !app_nil_r.
Qed.

Lemma onSocketEvents_run (events : list string) (data : JsObj) (rt : Runtime App) :
  exists rt',
    forEach (fun eventName => invokeCallbacks eventName data) events rt = (Normal tt, rt')
    /\ callbackRegistry rt' = callbackRegistry rt
    /\ called rt'
       = called rt ++ flat_map (fun ev => map ref (subscribers rt ev)) events.
Proof.
  revert rt. induction events as [|ev events IH]; intros rt.
  - exists rt. cbn. by rewrite app_nil_r.
  - cbn [forEach]. unfold bind. rewrite invokeCallbacks_run.
    match goal with |- context [forEach _ events ?r] => destruct (IH r) as (rt' & -> & Hreg & Hcalled) end.
    exists rt'. split; [done|]. split; [by rewrite Hreg|].
    rewrite Hcalled. cbn. unfold subscribers at 2. cbn. by rewrite <- app_assoc.
Qed.

(** Every name a socket event fans out to is named by one of the
    module's listeners for that event. *)
Lemma fanout_inv (name ev : string) :
  ev ∈ fanout name ->
  exists events, (name, Fanout events) ∈ moduleListeners /\ ev ∈ events.
Proof.
  unfold fanout. intros Hin.
  apply list_elem_of_In, in_flat_map in Hin as ([n l] & Hnl & Hin). cbn in Hin.
  destruct (String.eqb n name) eqn:E; [|by destruct Hin].
  apply String.eqb_eq in E. subst n.
  destruct l as [|events]; [by destruct Hin|].
  exists events. split; by apply list_elem_of_In.
Qed.

End SubscriptionFacts.

(** X8. The registry holds a callback once: registering a callback that
    is already registered for the event changes nothing, a registration
    keeps the references of an event free of duplicates and leaves the
    other events alone, and the callback is among the event's subscribers
    afterwards. *)
Theorem registerCallback_set {App : Type} (eventName : string)
    (cb : WebSocket.Callback App) (rt : WebSocket.Runtime App) :
  WebSocket.registerCallback eventName cb (WebSocket.registerCallback eventName cb rt)
  = WebSocket.registerCallback eventName cb rt
  /\ WebSocket.ref cb
     ∈ map WebSocket.ref
           (WebSocket.subscribers (WebSocket.registerCallback eventName cb rt) eventName)
  /\ (NoDup (map WebSocket.ref (WebSocket.subscribers rt eventName)) ->
      NoDup (map WebSocket.ref
               (WebSocket.subscribers (WebSocket.registerCallback eventName cb rt) eventName)))
  /\ (forall other, other <> eventName ->
        WebSocket.subscribers (WebSocket.registerCallback eventName cb rt) other
        = WebSocket.subscribers rt other).
Proof.
  unfold WebSocket.registerCallback, WebSocket.subscribers. cbn.
  rewrite !lookup_insert_eq. cbn. repeat split.
  - rewrite insert_insert_eq. by rewrite set_add_idem.
  - apply set_add_refs.
  - apply set_add_NoDup.
  - intros other Hne. by rewrite lookup_insert_ne.
Qed.

Lemma registerCallback_set_witness :
  NoDup (map WebSocket.ref
           (WebSocket.subscribers
              (WebSocket.registerCallback "telemetry" Scenario.counter Scenario.runtime)
              "telemetry"))
  /\ WebSocket.subscribers
       (WebSocket.registerCallback "telemetry" Scenario.counter Scenario.runtime) "robot_update"
     = [].
Proof.
  destruct (registerCallback_set "telemetry" Scenario.counter Scenario.runtime)
    as (_ & _ & Hnd & Hother).
  split.
  - apply Hnd. apply (bool_decide_unpack _). vm_compute. reflexivity.
  - rewrite Hother by discriminate. reflexivity.
Defined.

(** X9. Unsubscribing: after the function returned by [registerCallback]
    has run, the callback is not among the event's subscribers and an event
    no longer reaches it (the other subscribers are called as before); and
    for a callback that was not registered before, subscribing and
    unsubscribing leaves the event's subscribers as they were. *)
Theorem unsubscribe_removes {App : Type} (eventName : string) (data : JS.JsObj)
    (cb : WebSocket.Callback App) (rt : WebSocket.Runtime App) :
  (WebSocket.ref cb
   ∉ map WebSocket.ref (WebSocket.subscribers (WebSocket.unsubscribe eventName cb rt) eventName))
  /\ WebSocket.called
       (snd (WebSocket.invokeCallbacks eventName data (WebSocket.unsubscribe eventName cb rt)))
     = WebSocket.called rt
       ++ map WebSocket.ref
            (WebSocket.set_delete cb (WebSocket.subscribers rt eventName))
  /\ (WebSocket.ref cb ∉ map WebSocket.ref (WebSocket.subscribers rt eventName) ->
      WebSocket.subscribers
        (WebSocket.unsubscribe eventName cb (WebSocket.registerCallback eventName cb rt))
        eventName
      = WebSocket.subscribers rt eventName).
Proof.
  assert (WebSocket.subscribers (WebSocket.unsubscribe eventName cb rt) eventName
          = WebSocket.set_delete cb (WebSocket.subscribers rt eventName)) as Hsub.
  { unfold WebSocket.unsubscribe, WebSocket.subscribers.
    destruct (WebSocket.callbackRegistry rt !! eventName) as [s|] eqn:E; cbn.
    - by rewrite lookup_insert_eq.
    - by rewrite E. }
  split; [|split].
  - rewrite Hsub. apply set_delete_refs.
  - rewrite invokeCallbacks_run. cbn. rewrite Hsub.
    unfold WebSocket.unsubscribe.
    by destruct (WebSocket.callbackRegistry rt !! eventName).
  - intros Hfresh.
    unfold WebSocket.unsubscribe, WebSocket.registerCallback, WebSocket.subscribers. cbn.
    rewrite lookup_insert_eq. cbn. rewrite lookup_insert_eq. cbn.
    by apply set_delete_add.
Qed.

Lemma unsubscribe_removes_witness :
  WebSocket.subscribers
    (WebSocket.unsubscribe "telemetry" Scenario.map_listener
       (WebSocket.registerCallback "telemetry" Scenario.map_listener Scenario.runtime))
    "telemetry"
  = [Scenario.thrower; Scenario.counter].
Proof.
  destruct (unsubscribe_removes "telemetry" ∅ Scenario.map_listener Scenario.runtime)
    as (_ & _ & Hround).
  rewrite Hround; [reflexivity|].
  apply (bool_decide_unpack _). vm_compute. reflexivity.
Defined.

(** X10. No socket event reaches the subscribers of "map_data": whatever
    event the socket emits, the module's listeners complete normally, call
    the subscribers of the events they fan out to (each list once, in
    order) and leave the registry alone, and "map_data", the event
    [subscribeToMapUpdates] registers under, is not among those events. *)
Theorem map_data_never_dispatched {App : Type} (name : string) (data : JS.JsObj)
    (rt : WebSocket.Runtime App) :
  ("map_data" ∉ WebSocket.fanout name)
  /\ exists rt',
       WebSocket.onSocketEvent name data rt = (WebSocket.Normal tt, rt')
       /\ WebSocket.callbackRegistry rt' = WebSocket.callbackRegistry rt
       /\ WebSocket.called rt'
          = WebSocket.called rt
            ++ flat_map (fun ev => map WebSocket.ref (WebSocket.subscribers rt ev))
                        (WebSocket.fanout name).
Proof.
  split.
  - intros Hin. apply fanout_inv in Hin as (events & Hl & Hev).
    unfold WebSocket.moduleListeners in Hl.
    repeat (apply elem_of_cons in Hl as [Hl|Hl];
            [try discriminate Hl; injection Hl as _ ->;
             revert Hev; apply (bool_decide_unpack _); vm_compute; reflexivity|]).
    by apply elem_of_nil in Hl.
  - apply onSocketEvents_run.
Qed.

(** The map page's subscriber is not called by a telemetry event, nor is
    the counter it works on changed. *)
Lemma map_data_example :
  WebSocket.onSocketEvent "telemetry" ∅
    (WebSocket.subscribeToMapUpdates Scenario.map_listener
       (WebSocket.mkRuntime ∅ 0 [] []))
  = (WebSocket.Normal tt,
     WebSocket.subscribeToMapUpdates Scenario.map_listener (WebSocket.mkRuntime ∅ 0 [] [])).
Proof. reflexivity. Qed.

(** X11. The subscribers of "robot_update" are reached by exactly three
    socket events: "telemetry", "robot_update" and
    "robot_position_update". *)
Theorem robot_update_sources (name : string) :
  "robot_update" ∈ WebSocket.fanout name
  <-> name = "telemetry" \/ name = "robot_update" \/ name = "robot_position_update".
Proof.
  split.
  - intros Hin. apply fanout_inv in Hin as (events & Hl & Hev).
    unfold WebSocket.moduleListeners in Hl.
    repeat (apply elem_of_cons in Hl as [Hl|Hl];
            [try discriminate Hl; injection Hl as -> ->;
             first [ by left | by right; left | by right; right
                   | exfalso; revert Hev; apply (bool_decide_unpack _);
                     vm_compute; reflexivity ]|]).
    by apply elem_of_nil in Hl.
  - intros [->|[->| ->]]; apply (bool_decide_unpack _); vm_compute; reflexivity.
Qed.

(** X12. Disconnecting and connecting again opens a new socket: the old
    socket object is marked disconnected and stays where it was, the new
    reference differs from the old one and is what [getSocket] returns. *)
Theorem reconnect_opens_new_socket (env : WebSocket.Env) (c : WebSocket.Conn)
    (s : nat) (old : WebSocket.SocketObj) :
  WebSocket.getSocket c = Some s ->
  WebSocket.sockets c !! s = Some old ->
  let r := WebSocket.connectWebSocket env (WebSocket.disconnectWebSocket c) in
  fst r <> s
  /\ WebSocket.getSocket (snd r) = Some (fst r)
  /\ WebSocket.sockets (snd r) !! fst r = Some (WebSocket.newSocket env)
  /\ WebSocket.sockets (snd r) !! s
     = Some (WebSocket.mkSocket (WebSocket.url old) (WebSocket.options old)
                                (WebSocket.listeners old) true).
Proof.
  unfold WebSocket.getSocket, WebSocket.connectWebSocket, WebSocket.disconnectWebSocket.
  intros Hs Hold. rewrite Hs. cbn.
  pose proof (lookup_lt_Some _ _ _ Hold) as Hlt.
  rewrite length_alter. repeat split.
  - lia.
  - rewrite lookup_app_r by (rewrite length_alter; lia).
    rewrite length_alter, Nat.sub_diag. reflexivity.
  - rewrite lookup_app_l by (rewrite length_alter; lia).
    rewrite list_lookup_alter_eq, Hold. reflexivity.
Qed.

Lemma reconnect_opens_new_socket_witness :
  fst (WebSocket.connectWebSocket Scenario.env (WebSocket.disconnectWebSocket Scenario.conn))
  <> 0.
Proof.
  apply (reconnect_opens_new_socket Scenario.env Scenario.conn 0
           (WebSocket.newSocket Scenario.env)); reflexivity.
Defined.

(* ===================================================================== *)
(** * More on the REST layer *)
(* ===================================================================== *)

Section SanitizeFacts.
Import JS.
Context `{Host}.

Lemma coerceKey_settled (m : JsObj) (k : string) : Api.settled m k -> Api.coerceKey m k = m.
Proof.
  unfold Api.settled, Api.coerceKey. intros Hs.
  destruct (negb (nullish (get m k))); [|done].
  destruct (negb (PrimFloat.is_nan (Number (get m k)))); [|done].
  by apply insert_id, Hs.
Qed.

Lemma coerce_loop_settled (ks : list string) (m : JsObj) :
  Forall (Api.settled m) ks -> foldl Api.coerceKey m ks = m.
Proof.
  induction ks as [|k ks IH]; intros Hall; [done|].
  apply Forall_cons in Hall as [Hk Hks]. cbn.
  rewrite coerceKey_settled by done. by apply IH.
Qed.

Lemma coerce_loop_result_settled (o : JsObj) (k : string) :
  k ∈ Api.numericKeys -> Api.settled (foldl Api.coerceKey o Api.numericKeys) k.
Proof.
  intros Hk. unfold Api.settled, get.
  rewrite (coerce_loop_key Api.numericKeys o k numericKeys_NoDup Hk).
  destruct (negb (nullish (get o k)) && negb (PrimFloat.is_nan (Number (get o k)))) eqn:E.
  - intros _. reflexivity.
  - fold (get o k). rewrite E. discriminate.
Qed.

Lemma sanitized_has_no_truthy_id (o : JsObj) :
  truthy (get (foldl Api.coerceKey (Api.renameId o) Api.numericKeys) "_id") = false.
Proof.
  unfold get. rewrite coerce_loop_other
    by (apply (bool_decide_unpack _); vm_compute; reflexivity).
  unfold Api.renameId. destruct (truthy (get o "_id")) eqn:E.
  - by rewrite lookup_delete_eq.
  - exact E.
Qed.

Lemma sanitizeDoc_idem (d : Api.Doc) : Api.sanitizeDoc (Api.sanitizeDoc d) = Api.sanitizeDoc d.
Proof.
  destruct d as [v|o]; [reflexivity|]. unfold Api.sanitizeDoc. f_equal.
  unfold Api.renameId at 1. rewrite sanitized_has_no_truthy_id.
  apply coerce_loop_settled. apply Forall_forall. intros k Hk.
  by apply coerce_loop_result_settled.
Qed.

End SanitizeFacts.

(** X13. Sanitizing is idempotent: a document, or an array of
    documents, that has passed [sanitizeDoc] / [sanitizeDocs] is returned
    unchanged by a second pass. *)
Theorem sanitize_idempotent `{JS.Host} (d : Api.Doc) (docs : Api.Docs) :
  Api.sanitizeDoc (Api.sanitizeDoc d) = Api.sanitizeDoc d
  /\ Api.sanitizeDocs (Api.sanitizeDocs docs) = Api.sanitizeDocs docs.
Proof.
  split; [apply sanitizeDoc_idem|].
  destruct docs as [d'|l]; [reflexivity|]. cbn. f_equal.
  rewrite map_map. apply map_ext. intros x. apply sanitizeDoc_idem.
Qed.

(** X14. [sanitizeDoc] renames a truthy [_id] to [id], as text, and
    otherwise touches only its numeric fields: every other property of the
    document is in the result exactly as it was. *)
Theorem sanitizeDoc_id_and_rest `{JS.Host} (o : JS.JsObj) :
  exists out,
    Api.sanitizeDoc (Api.DObj o) = Api.DObj out
    /\ (JS.truthy (JS.get o "_id") = true ->
        out !! "_id" = None /\ out !! "id" = Some (JS.VStr (JS.String (JS.get o "_id"))))
    /\ (JS.truthy (JS.get o "_id") = false ->
        out !! "_id" = o !! "_id" /\ out !! "id" = o !! "id")
    /\ (forall k, k ∉ Api.numericKeys -> k <> "id" -> k <> "_id" -> out !! k = o !! k).
Proof.
  eexists. split; [reflexivity|].
  assert ("_id" ∉ Api.numericKeys) as H1
    by (apply (bool_decide_unpack _); vm_compute; reflexivity).
  assert ("id" ∉ Api.numericKeys) as H2
    by (apply (bool_decide_unpack _); vm_compute; reflexivity).
  split; [|split].
  - intros Ht. rewrite !coerce_loop_other by done.
    unfold Api.renameId. rewrite Ht. split.
    + apply lookup_delete_eq.
    + rewrite lookup_delete_ne by discriminate. apply lookup_insert_eq.
  - intros Ht. rewrite !coerce_loop_other by done.
    unfold Api.renameId. by rewrite Ht.
  - intros k Hk Hid Hid'. rewrite coerce_loop_other by done. by apply renameId_lookup.
Qed.

Lemma sanitizeDoc_id_and_rest_witness :
  exists out,
    Api.sanitizeDoc (H := Scenario.host) (Api.DObj Scenario.shelf_doc) = Api.DObj out
    /\ out !! "_id" = None /\ out !! "id" = Some (JS.VStr "65a1").
Proof.
  destruct (sanitizeDoc_id_and_rest (H := Scenario.host) Scenario.shelf_doc)
    as (out & Hout & Hid & _).
  exists out. split; [exact Hout|]. apply Hid. reflexivity.
Defined.

(** X15. The session token: after [setToken] with a non-empty token,
    [getToken] returns that token, [localStorage] holds it and the request
    headers carry it as a bearer token; after [setToken] with [null] or the
    empty text (and so after [logout]) there is no token and no
    Authorization header, whatever was stored before. *)
Theorem setToken_getToken (newToken : option string) (s : Api.Session) :
  let s' := Api.setToken newToken s in
  let effective := match newToken with
                   | Some t => if String.eqb t "" then None else Some t
                   | None => None
                   end in
  Api.getToken s' = effective
  /\ Api.localStorage s' !! "token" = effective
  /\ Api.getHeaders s' !! "Authorization"
     = (fun t => ("Bearer " ++ t)%string) <$> effective
  /\ Api.getHeaders s' !! "Content-Type" = Some "application/json".
Proof.
  unfold Api.getHeaders, Api.getToken, Api.setToken. cbn.
  destruct newToken as [t|]; cbn.
  - destruct (String.eqb t "") eqn:E; cbn.
    + rewrite lookup_delete_eq. cbn. repeat split.
    + rewrite lookup_insert_eq. rewrite E. cbn. repeat split.
  - rewrite lookup_delete_eq. cbn. repeat split.
Qed.

Section FormFacts.
Import JS.
Context `{Host} `{TextHost}.

Lemma num_or_not_nan (n : float) : PrimFloat.is_nan (ShelvesPage.num_or n 0) = false.
Proof.
  unfold ShelvesPage.num_or.
  destruct (PrimFloat.eqb n 0) eqn:E0; cbn; [reflexivity|].
  destruct (PrimFloat.is_nan n) eqn:En; [reflexivity | exact En].
Qed.

Lemma validateForm_storage (formData : ShelvesPage.EditForm) :
  ShelvesPage.validateForm formData = None ->
  defined (ShelvesPage.storage_y (ShelvesPage.storage formData))
  = defined (ShelvesPage.storage_x (ShelvesPage.storage formData))
  /\ (defined (ShelvesPage.storage_x (ShelvesPage.storage formData)) = true ->
      PrimFloat.is_nan (Number (ShelvesPage.storage_x (ShelvesPage.storage formData))) = false
      /\ PrimFloat.is_nan (Number (ShelvesPage.storage_y (ShelvesPage.storage formData)))
         = false).
Proof.
  unfold ShelvesPage.validateForm.
  destruct (defined (ShelvesPage.storage_x (ShelvesPage.storage formData)));
    destruct (defined (ShelvesPage.storage_y (ShelvesPage.storage formData))); cbn;
    repeat match goal with
           | |- context [if ?b then Some _ else _] => destruct b eqn:?; [discriminate|]
           end;
    try discriminate; intros _; split; try reflexivity; try discriminate.
  intros _. by split.
Qed.

End FormFacts.

(** X16. The Shelves form never sends a set-storage request with a
    coordinate that is not a number: whatever the form holds, each request
    it sends carries an x, a y and a yaw that are not NaN. *)
Theorem form_request_is_numeric `{JS.Host} (formData : ShelvesPage.FormData)
    (editingShelf : JS.JsObj) (res : Flow.Response JS.JsObj) :
  Forall (fun e => match e with
                   | Flow.PutShelfStorage _ sx sy syaw =>
                       PrimFloat.is_nan sx = false /\ PrimFloat.is_nan sy = false
                       /\ PrimFloat.is_nan syaw = false
                   | _ => False
                   end)
         (snd (ShelvesPage.handleSubmit_storage formData editingShelf res)).
Proof.
  rewrite handleSubmit_storage_trace.
  destruct (_ && _ && _ && _ && _) eqn:E; [|constructor].
  apply andb_true_iff in E as [E Hy]. apply andb_true_iff in E as [E Hx].
  apply negb_true_iff in Hx, Hy.
  repeat constructor; try done. apply num_or_not_nan.
Qed.

(** X17. A form that passes [validateForm] is not stopped by the
    argument check of [setStorageLocation]: it has both storage
    coordinates or neither, and when its storage differs from the shelf's
    and is given, the set-storage request goes out. *)
Theorem validated_form_is_sent `{JS.Host} `{JS.TextHost} (formData : ShelvesPage.EditForm)
    (editingShelf : JS.JsObj) (res : Flow.Response JS.JsObj) :
  ShelvesPage.validateForm formData = None ->
  JS.defined (ShelvesPage.storage_y (ShelvesPage.storage formData))
  = JS.defined (ShelvesPage.storage_x (ShelvesPage.storage formData))
  /\ snd (ShelvesPage.handleSubmit_storage (ShelvesPage.storage formData) editingShelf res)
     = if ShelvesPage.storageLocChanged (ShelvesPage.storage formData) editingShelf
          && JS.defined (ShelvesPage.storage_x (ShelvesPage.storage formData))
       then [Flow.PutShelfStorage (JS.String (JS.get editingShelf "id"))
               (JS.Number (ShelvesPage.storage_x (ShelvesPage.storage formData)))
               (JS.Number (ShelvesPage.storage_y (ShelvesPage.storage formData)))
               (ShelvesPage.num_or
                  (JS.Number (ShelvesPage.storage_yaw (ShelvesPage.storage formData))) 0)]
       else [].
Proof.
  intros Hvalid. destruct (validateForm_storage formData Hvalid) as [Hxy Hnum].
  split; [exact Hxy|]. rewrite handleSubmit_storage_trace, Hxy.
  destruct (JS.defined (ShelvesPage.storage_x (ShelvesPage.storage formData))) eqn:Ex.
  - destruct (Hnum eq_refl) as [-> ->]. cbn.
    by destruct (ShelvesPage.storageLocChanged _ _).
  - by rewrite !andb_false_r.
Qed.

Lemma validated_form_is_sent_witness :
  snd (ShelvesPage.handleSubmit_storage (H := Scenario.host)
         (ShelvesPage.storage Scenario.edit_form) Scenario.S1_row (Flow.Rejected "offline"))
  = [Flow.PutShelfStorage "S1" 200 250 0].
Proof.
  destruct (validated_form_is_sent (H := Scenario.host) (H0 := Scenario.text_host)
              Scenario.edit_form Scenario.S1_row (Flow.Rejected "offline") eq_refl)
    as [_ ->].
  reflexivity.
Defined.

(* ===================================================================== *)
(** * The dashboard statistics *)
(* ===================================================================== *)

Section DashboardFacts.
Import JS Dashboard.

Lemma filter_disjoint_length {A} (f g : A -> bool) (l : list A) :
  (forall x, f x = true -> g x = false) ->
  length (List.filter f l) + length (List.filter g l) <= length l.
Proof.
  intros Hfg. induction l as [|x l IH]; cbn; [lia|].
  destruct (f x) eqn:Ef.
  - rewrite (Hfg x Ef). cbn. lia.
  - destruct (g x); cbn; lia.
Qed.

Lemma filter_included_length {A} (f g : A -> bool) (l : list A) :
  (forall x, f x = true -> g x = true) ->
  length (List.filter f l) <= length (List.filter g l).
Proof.
  intros Hfg. induction l as [|x l IH]; cbn; [lia|].
  destruct (f x) eqn:Ef.
  - rewrite (Hfg x Ef). cbn. lia.
  - destruct (g x); cbn; lia.
Qed.

Lemma filter_none_length {A} (f : A -> bool) (l : list A) :
  Forall (fun x => f x = false) l -> List.filter f l = [].
Proof.
  induction 1 as [|x l Hx _ IH]; cbn; [done|]. by rewrite Hx.
Qed.

Lemma hasStatus_inv (status : string) (t : JsObj) :
  hasStatus status t = true -> get t "status" = VStr status.
Proof.
  unfold hasStatus. destruct (get t "status"); cbn; try discriminate.
  intros E. apply String.eqb_eq in E. by subst.
Qed.

Lemma completed_not_active (t : JsObj) : hasStatus "COMPLETED" t = true -> isActiveTask t = false.
Proof. intros E. unfold isActiveTask. by rewrite (hasStatus_inv _ _ E). Qed.

Lemma pending_active (t : JsObj) : hasStatus "PENDING" t = true -> isActiveTask t = true.
Proof. intros E. unfold isActiveTask. by rewrite (hasStatus_inv _ _ E). Qed.

Lemma upper_case_inactive (r : JsObj) :
  (exists s, s ∈ robotStatuses /\ get r "status" = VStr s) -> isActiveRobot r = false.
Proof.
  intros (s & Hs & E). unfold isActiveRobot. rewrite E. unfold robotStatuses in Hs.
  repeat (apply elem_of_cons in Hs as [->|Hs]; [reflexivity|]).
  by apply elem_of_nil in Hs.
Qed.

End DashboardFacts.

(** X18. The dashboard's counts are consistent: active and completed
    tasks are disjoint parts of the tasks, pending tasks are among the
    active ones, and the active robots are among the robots. *)
Theorem dashboard_counts (robotsData tasksData shelvesData productsData : list JS.JsObj) :
  let stats := Dashboard.computeStats robotsData tasksData shelvesData productsData in
  Dashboard.activeTasks stats + Dashboard.completedTasks stats <= Dashboard.totalTasks stats
  /\ Dashboard.pendingTasks stats <= Dashboard.activeTasks stats
  /\ Dashboard.activeRobots stats <= Dashboard.totalRobots stats
  /\ Dashboard.totalTasks stats = length tasksData
  /\ Dashboard.totalRobots stats = length robotsData.
Proof.
  cbn. repeat split.
  - rewrite Nat.add_comm. apply filter_disjoint_length, completed_not_active.
  - apply filter_included_length, pending_active.
  - apply List.filter_length_le.
Qed.

(** X19. The health indicator: robots whose status is one of the
    backend's values (IDLE, BUSY, ERROR, OFFLINE, CHARGING) are not counted
    as active, since the hook compares with the lower-case texts 'busy' and
    'idle'; the indicator is then "warning" when there are robots and
    "critical" when there are none, and never "healthy". *)
Theorem dashboard_health_upper_case
    (robotsData tasksData shelvesData productsData : list JS.JsObj) :
  Forall (fun r => exists s, s ∈ Dashboard.robotStatuses /\ JS.get r "status" = JS.VStr s)
         robotsData ->
  let stats := Dashboard.computeStats robotsData tasksData shelvesData productsData in
  Dashboard.activeRobots stats = 0
  /\ Dashboard.systemHealth stats
     = match robotsData with [] => "critical" | _ => "warning" end.
Proof.
  intros Hup. cbn.
  rewrite (filter_none_length Dashboard.isActiveRobot robotsData).
  - split; [reflexivity|]. by destruct robotsData.
  - eapply Forall_impl; [exact Hup|]. intros r. apply upper_case_inactive.
Qed.

Lemma dashboard_health_upper_case_witness :
  Dashboard.systemHealth
    (Dashboard.computeStats Scenario.robots_data Scenario.tasks_data [] [])
  = "warning".
Proof.
  apply (dashboard_health_upper_case Scenario.robots_data Scenario.tasks_data [] []).
  repeat constructor.
  - exists "IDLE". split; [|reflexivity]. apply (bool_decide_unpack _). vm_compute. reflexivity.
  - exists "BUSY". split; [|reflexivity]. apply (bool_decide_unpack _). vm_compute. reflexivity.
Defined.

(* ===================================================================== *)
(** * The map page and the Robots page: polls and push handlers *)
(* ===================================================================== *)

Section PollFacts.
Import JS.

Lemma map_lookup {A B} (f : A -> B) (l : list A) (i : nat) :
  map f l !! i = f <$> (l !! i).
Proof. revert i. induction l as [|x l IH]; intros [|i]; cbn; auto. Qed.

Lemma polledPosition_other (r old : JsObj) (k : string) :
  k ∉ ["x"; "y"; "yaw"] -> get (WarehouseMap.polledPosition r old) k = get old k.
Proof.
  intros Hk. apply not_elem_of_cons in Hk as [Hx Hk].
  apply not_elem_of_cons in Hk as [Hy Hk]. apply not_elem_of_cons in Hk as [Hw _].
  unfold WarehouseMap.polledPosition. by rewrite !get_insert_ne.
Qed.

Lemma shelfPatch_other (data s : JsObj) (k : string) :
  k ∉ ["x"; "y"; "current_x"; "current_y"; "current_yaw"] ->
  get (WarehouseMap.shelfPatch data s) k = get s k.
Proof.
  intros Hk. repeat (apply not_elem_of_cons in Hk as [? Hk]).
  unfold WarehouseMap.shelfPatch. by rewrite !get_insert_ne.
Qed.

Lemma map_unchanged {A} (f : A -> A) (l : list A) :
  Forall (fun x => f x = x) l -> map f l = l.
Proof. induction 1 as [|x l Hx _ IH]; cbn; [done|]. by rewrite Hx, IH. Qed.

Lemma strict_eq_undef (v : JsVal) : defined v = true -> strict_eq v VUndef = false.
Proof. by destruct v. Qed.

Lemma strict_eq_undef_l (v : JsVal) : strict_eq VUndef v = negb (defined v).
Proof. by destruct v. Qed.

End PollFacts.

(** X20. The position poll of the map page takes the list of shelves (and
    of robots) from the answer: the new list is as long as the answer; a
    polled shelf whose id the page knows becomes the page's record with x,
    y and yaw from the answer and every other property, the storage
    coordinates among them, as the page had it; a polled shelf with an
    unknown id is taken as it is. The tasks are not touched. *)
Theorem refreshPositions_shelves (robotsData shelvesData : option (list JS.JsObj))
    (md : WarehouseMap.MapData) :
  exists md',
    WarehouseMap.refreshPositions robotsData shelvesData (Some md) = Some md'
    /\ WarehouseMap.tasks md' = WarehouseMap.tasks md
    /\ exists shelves',
         WarehouseMap.shelves md' = Some shelves'
         /\ length shelves' = length (default [] shelvesData)
         /\ forall i s, default [] shelvesData !! i = Some s ->
              exists s', shelves' !! i = Some s'
                /\ match WarehouseMap.findById (WarehouseMap.shelves md) s with
                   | Some old =>
                       forall k, k ∉ ["x"; "y"; "yaw"] -> JS.get s' k = JS.get old k
                   | None => s' = s
                   end.
Proof.
  eexists. split; [reflexivity|]. split; [reflexivity|]. cbn.
  eexists. split; [reflexivity|]. split; [apply length_map|].
  intros i s Hs. rewrite map_lookup, Hs. cbn. eexists. split; [reflexivity|].
  unfold WarehouseMap.refreshOne.
  destruct (WarehouseMap.findById (WarehouseMap.shelves md) s) as [old|]; [|reflexivity].
  intros k Hk. by apply polledPosition_other.
Qed.

Lemma refreshPositions_shelves_witness :
  exists md' shelves' s',
    WarehouseMap.refreshPositions (Some []) (Some [Scenario.S1_polled; Scenario.S9_polled])
      (Some Scenario.map_data) = Some md'
    /\ WarehouseMap.shelves md' = Some shelves'
    /\ shelves' !! 0 = Some s'
    /\ JS.get s' "storage_x" = JS.VNum 100.
Proof.
  destruct (refreshPositions_shelves (Some []) (Some [Scenario.S1_polled; Scenario.S9_polled])
              Scenario.map_data)
    as (md' & Hmd & _ & shelves' & Hsh & _ & Hat).
  destruct (Hat 0 Scenario.S1_polled eq_refl) as (s' & Hs & Hkeep).
  exists md', shelves', s'. repeat split; try done.
  change (WarehouseMap.findById (WarehouseMap.shelves Scenario.map_data) Scenario.S1_polled)
    with (Some Scenario.S1_row) in Hkeep.
  rewrite Hkeep; [reflexivity|].
  apply (bool_decide_unpack _). vm_compute. reflexivity.
Defined.

(** The poll answer of the scenario: S1 keeps the page's storage
    position (100,150) although the answer says (7,8), and S9 comes in. *)
Lemma refreshPositions_example :
  (fun md => map (fun s => (JS.get s "id", JS.get s "storage_x", JS.get s "storage_y"))
                 <$> (md ≫= WarehouseMap.shelves))
    (WarehouseMap.refreshPositions (Some []) (Some [Scenario.S1_polled; Scenario.S9_polled])
       (Some Scenario.map_data))
  = Some [(JS.VStr "S1", JS.VNum 100, JS.VNum 150); (JS.VStr "S9", JS.VUndef, JS.VUndef)].
Proof. reflexivity. Qed.

(** X21. A shelf update on the map page leaves the number of shelves as
    it is, changes only shelves whose id is the payload's [shelf_id], and
    of those only x, y and the current position: every other property, the
    storage coordinates among them, stays. A payload for an id the page
    does not have changes nothing. *)
Theorem onShelfUpdate_local (data : JS.JsObj) (md : WarehouseMap.MapData)
    (ss : list JS.JsObj) :
  WarehouseMap.shelves md = Some ss ->
  exists ss',
    WarehouseMap.onShelfUpdate data (Some md)
    = Some (WarehouseMap.mkMapData (WarehouseMap.robots md) (Some ss')
              (WarehouseMap.tasks md) (WarehouseMap.rest md))
    /\ length ss' = length ss
    /\ (forall i s, ss !! i = Some s ->
          exists s', ss' !! i = Some s'
            /\ (JS.strict_eq (JS.get s "id") (JS.get data "shelf_id") = false -> s' = s)
            /\ (forall k, k ∉ ["x"; "y"; "current_x"; "current_y"; "current_yaw"] ->
                  JS.get s' k = JS.get s k))
    /\ (Forall (fun s => JS.strict_eq (JS.get s "id") (JS.get data "shelf_id") = false) ss ->
        ss' = ss).
Proof.
  intros Hss. unfold WarehouseMap.onShelfUpdate. rewrite Hss.
  eexists. split; [reflexivity|]. split; [apply length_map|]. split.
  - intros i s Hs. rewrite map_lookup, Hs. cbn. eexists. split; [reflexivity|].
    destruct (JS.strict_eq (JS.get s "id") (JS.get data "shelf_id")).
    + split; [discriminate|]. intros k Hk. by apply shelfPatch_other.
    + split; reflexivity.
  - intros Hall. apply map_unchanged. eapply Forall_impl; [exact Hall|].
    intros s Hs. cbn in Hs. by rewrite Hs.
Qed.

Lemma onShelfUpdate_local_witness :
  WarehouseMap.onShelfUpdate (<["shelf_id" := JS.VStr "S9"]> (<["x" := JS.VNum 1]> ∅))
    (Some Scenario.map_data)
  = Some Scenario.map_data.
Proof.
  destruct (onShelfUpdate_local (<["shelf_id" := JS.VStr "S9"]> (<["x" := JS.VNum 1]> ∅))
              Scenario.map_data [Scenario.S1_row] eq_refl)
    as (ss' & -> & _ & _ & Hsame).
  rewrite Hsame; [reflexivity|]. repeat constructor.
Defined.

(** X22. Telemetry on the map page touches robots only: the shelves, the
    tasks and the other properties of the map data stay, the number of
    robots stays, and a robot that the payload's robot id does not match
    stays as it is (so a payload for an unknown robot changes nothing). *)
Theorem onTelemetry_robots_only `{JS.Host} (data : JS.JsObj) (md : WarehouseMap.MapData) :
  let robotId := JS.or_else (JS.or_else (JS.get data "robot_id") (JS.get data "robot"))
                            (JS.get data "id") in
  exists md',
    WarehouseMap.onTelemetry data (Some md) = Some md'
    /\ WarehouseMap.shelves md' = WarehouseMap.shelves md
    /\ WarehouseMap.tasks md' = WarehouseMap.tasks md
    /\ WarehouseMap.rest md' = WarehouseMap.rest md
    /\ length <$> WarehouseMap.robots md' = length <$> WarehouseMap.robots md
    /\ forall rs rs' i r,
         WarehouseMap.robots md = Some rs -> WarehouseMap.robots md' = Some rs' ->
         rs !! i = Some r -> WarehouseMap.matches robotId r = false ->
         rs' !! i = Some r.
Proof.
  cbn. unfold WarehouseMap.onTelemetry.
  set (robotId := JS.or_else _ _).
  set (x := if JS.defined (JS.get data "x") then _ else _).
  set (y := if JS.defined (JS.get data "y") then _ else _).
  set (yaw := if JS.defined (JS.get data "yaw") then _ else _).
  destruct (JS.truthy robotId && JS.defined x && JS.defined y);
    [|exists md; repeat split; intros; congruence].
  destruct (WarehouseMap.robots md) as [rs|] eqn:Hrs;
    [|exists md; repeat split; first [by rewrite Hrs | intros; congruence]].
  destruct (existsb (WarehouseMap.matches robotId) rs);
    [|exists md; repeat split; first [by rewrite Hrs | intros; congruence]].
  eexists. split; [reflexivity|]. cbn. repeat split.
  - by rewrite length_map.
  - intros rs0 rs' i r [= <-] [= <-] Hr Hm. rewrite map_lookup, Hr. cbn. by rewrite Hm.
Qed.

Lemma onTelemetry_robots_only_witness :
  WarehouseMap.robots
    <$> WarehouseMap.onTelemetry (H := Scenario.host)
          (<["robot_id" := JS.VStr "r99"]> (<["x" := JS.VNum 1]> (<["y" := JS.VNum 2]> ∅)))
          (Some Scenario.map_data)
  = Some (Some [Scenario.r1_row]).
Proof.
  destruct (onTelemetry_robots_only (H := Scenario.host)
              (<["robot_id" := JS.VStr "r99"]> (<["x" := JS.VNum 1]> (<["y" := JS.VNum 2]> ∅)))
              Scenario.map_data)
    as (md' & -> & _ & _ & _ & Hlen & Hkeep).
  cbn. destruct (WarehouseMap.robots md') as [[|r' [|? ?]]|] eqn:E; try discriminate Hlen.
  specialize (Hkeep [Scenario.r1_row] [r'] 0 Scenario.r1_row eq_refl eq_refl eq_refl eq_refl).
  by injection Hkeep as ->.
Defined.

(** X23. The task poll of the map page changes the status only: a polled
    task whose id the page knows becomes the page's record with the polled
    status, every other property as the page had it; an answer that is not
    an array leaves the map data alone, and robots and shelves are never
    touched. *)
Theorem refreshTaskStatus_status_only (tasksData : option (list JS.JsObj))
    (md : WarehouseMap.MapData) (olds : list JS.JsObj) :
  WarehouseMap.tasks md = Some olds ->
  exists md',
    WarehouseMap.refreshTaskStatus tasksData (Some md) = Some md'
    /\ WarehouseMap.robots md' = WarehouseMap.robots md
    /\ WarehouseMap.shelves md' = WarehouseMap.shelves md
    /\ (tasksData = None -> md' = md)
    /\ forall ts, tasksData = Some ts ->
         exists tasks',
           WarehouseMap.tasks md' = Some tasks'
           /\ length tasks' = length ts
           /\ forall i t, ts !! i = Some t ->
                exists t', tasks' !! i = Some t'
                  /\ JS.get t' "status" = JS.get t "status"
                  /\ match WarehouseMap.findById (Some olds) t with
                     | Some old => forall k, k <> "status" -> JS.get t' k = JS.get old k
                     | None => t' = t
                     end.
Proof.
  intros Holds. unfold WarehouseMap.refreshTaskStatus.
  destruct tasksData as [ts|].
  - rewrite Holds. eexists. split; [reflexivity|]. cbn.
    split; [reflexivity|]. split; [reflexivity|]. split; [discriminate|].
    intros ts' [= <-]. eexists. split; [reflexivity|]. split; [apply length_map|].
    intros i t Ht. rewrite map_lookup, Ht. cbn. eexists. split; [reflexivity|].
    destruct (List.find _ olds) as [old|].
    + split; [apply get_insert_eq|]. intros k Hk. by apply get_insert_ne.
    + split; reflexivity.
  - exists md. repeat split; discriminate.
Qed.

Lemma refreshTaskStatus_status_only_witness :
  WarehouseMap.refreshTaskStatus None (Some Scenario.map_data) = Some Scenario.map_data.
Proof.
  destruct (refreshTaskStatus_status_only None Scenario.map_data [] eq_refl)
    as (md' & -> & _ & _ & Hnone & _).
  by rewrite Hnone.
Defined.

(** X24. The position poll of the Robots page never adds or removes a
    robot: the list keeps its length; a robot the answer does not have
    stays as it is; a robot the answer has keeps every property but x, y
    and yaw (its status and telemetry among them). *)
Theorem pollPositions_local (updated prev : list JS.JsObj) :
  length (RobotsPage.pollPositions updated prev) = length prev
  /\ forall i robot, prev !! i = Some robot ->
       exists robot',
         RobotsPage.pollPositions updated prev !! i = Some robot'
         /\ (forall k, k ∉ ["x"; "y"; "yaw"] -> JS.get robot' k = JS.get robot k)
         /\ (Forall (fun r => JS.strict_eq (JS.get r "id") (JS.get robot "id") = false)
                    updated -> robot' = robot).
Proof.
  unfold RobotsPage.pollPositions. split; [apply length_map|].
  intros i robot Hr. rewrite map_lookup, Hr. cbn. eexists. split; [reflexivity|].
  destruct (List.find _ updated) as [found|] eqn:E.
  - split; [intros k Hk; by apply polledPosition_other|].
    intros Hall. apply find_some in E as [Hin Heq].
    apply list_elem_of_In in Hin.
    rewrite Forall_forall in Hall. specialize (Hall found Hin). cbn in Hall. congruence.
  - split; reflexivity.
Qed.

Lemma pollPositions_local_witness :
  RobotsPage.pollPositions [Scenario.S9_polled] [Scenario.r1_row] !! 0 = Some Scenario.r1_row.
Proof.
  destruct (pollPositions_local [Scenario.S9_polled] [Scenario.r1_row]) as [_ Hkeep].
  destruct (Hkeep 0 Scenario.r1_row eq_refl) as (robot' & -> & _ & Hsame).
  rewrite Hsame; [reflexivity|]. repeat constructor.
Defined.

(** X25. Identity resolution on the Robots page: telemetry that carries
    none of [robot_id], [robot], [name], [id] changes no robot that has a
    [robot_id], a [name] and an [id]; but a robot without a [name] is
    matched by every payload without a [name], whichever robot the payload
    names. *)
Theorem Robots_identity `{JS.Host} (data : JS.JsObj) :
  (Forall (fun k => JS.get data k = JS.VUndef) RobotsPage.identityKeys ->
   forall prev,
     Forall (fun r => JS.defined (JS.get r "robot_id") = true
                      /\ JS.defined (JS.get r "name") = true
                      /\ JS.defined (JS.get r "id") = true) prev ->
     RobotsPage.onTelemetry data prev = prev)
  /\ (forall r, JS.get r "name" = JS.VUndef -> JS.get data "name" = JS.VUndef ->
        RobotsPage.isMatch data r = true).
Proof.
  split.
  - intros Hdata prev Hall.
    unfold RobotsPage.identityKeys in Hdata.
    apply Forall_cons in Hdata as [E1 Hdata]. apply Forall_cons in Hdata as [E2 Hdata].
    apply Forall_cons in Hdata as [E3 Hdata]. apply Forall_cons in Hdata as [E4 _].
    apply map_unchanged. eapply Forall_impl; [exact Hall|].
    intros r (D1 & D2 & D3). cbn.
    unfold RobotsPage.isMatch. rewrite E1, E2, E3, E4.
    by rewrite !strict_eq_undef.
  - intros r Er Ed. unfold RobotsPage.isMatch. rewrite Er, Ed. cbn.
    by rewrite !orb_true_r.
Qed.

Lemma Robots_identity_witness :
  RobotsPage.onTelemetry (H := Scenario.host) Scenario.telemetry_anonymous [Scenario.r1_row]
  = [Scenario.r1_row]
  /\ RobotsPage.isMatch (<["robot_id" := JS.VStr "r2"]> ∅)
       (<["id" := JS.VStr "1"]> (<["robot_id" := JS.VStr "r1"]> ∅)) = true.
Proof.
  split.
  - apply (Robots_identity (H := Scenario.host) Scenario.telemetry_anonymous).
    + repeat constructor.
    + repeat constructor.
  - apply (Robots_identity (H := Scenario.host) (<["robot_id" := JS.VStr "r2"]> ∅));
      reflexivity.
Defined.

(* ===================================================================== *)
(** * The push handlers of the Shelves page *)
(* ===================================================================== *)

(** X26. The merges of the Shelves page change only the shelves with the
    payload's id: the list keeps its length, a shelf with another id stays
    as it is, and a payload for an id the page does not have leaves the
    list unchanged; a [shelf_deleted] for such an id leaves it unchanged
    too, and after any [shelf_deleted] no shelf of the list has the
    payload's id. *)
Theorem Shelves_push_local (e : ShelvesPage.Push) (data : JS.JsObj)
    (st : ShelvesPage.PageState) :
  let payload := match e with
                 | ShelvesPage.shelf_update d | ShelvesPage.shelf_location_update d => d
                 end in
  length (ShelvesPage.shelfList (ShelvesPage.onPush e st)) = length (ShelvesPage.shelfList st)
  /\ (forall i s, ShelvesPage.shelfList st !! i = Some s ->
        ShelvesPage.sameId s payload = false ->
        ShelvesPage.shelfList (ShelvesPage.onPush e st) !! i = Some s)
  /\ (Forall (fun s => ShelvesPage.sameId s payload = false) (ShelvesPage.shelfList st) ->
      ShelvesPage.shelfList (ShelvesPage.onPush e st) = ShelvesPage.shelfList st)
  /\ (Forall (fun s => ShelvesPage.sameId s data = false) (ShelvesPage.shelfList st) ->
      ShelvesPage.shelfList (ShelvesPage.on_shelf_deleted data st) = ShelvesPage.shelfList st)
  /\ Forall (fun s => ShelvesPage.sameId s data = false)
            (ShelvesPage.shelfList (ShelvesPage.on_shelf_deleted data st)).
Proof.
  cbn. split; [|split; [|split; [|split]]].
  - destruct e; cbn; apply length_map.
  - intros i s Hs Hid. destruct e; cbn; rewrite map_lookup, Hs; cbn; by rewrite Hid.
  - intros Hall. destruct e; cbn; apply map_unchanged;
      (eapply Forall_impl; [exact Hall|]); intros s Hs; cbn in Hs; by rewrite Hs.
  - intros Hall. cbn. induction Hall as [|s l Hs _ IH]; [done|].
    rewrite filter_cons_True by done. by rewrite IH.
  - cbn. apply Forall_forall. intros s Hin.
    by apply list_elem_of_filter in Hin as [Hid _].
Qed.

Lemma Shelves_push_local_witness :
  ShelvesPage.shelfList
    (ShelvesPage.onPush
       (ShelvesPage.shelf_update (<["id" := JS.VStr "S9"]> (<["storage_x" := JS.VNum 1]> ∅)))
       Scenario.page)
  = [Scenario.S1_row].
Proof.
  destruct (Shelves_push_local
              (ShelvesPage.shelf_update
                 (<["id" := JS.VStr "S9"]> (<["storage_x" := JS.VNum 1]> ∅)))
              ∅ Scenario.page) as (_ & _ & Hsame & _).
  rewrite Hsame; [reflexivity|]. repeat constructor.
Defined.

(* ===================================================================== *)
(** * The position aliases of loaded records *)
(* ===================================================================== *)

Section AliasFacts.
Import JS.

Lemma alias_stable (r : JsObj) (a b : string) :
  let c := if defined (get r a) then get r a else get r b in
  (if defined c then c else get r b) = c.
Proof.
  cbn. destruct (defined (get r a)) eqn:Ea.
  - by rewrite Ea.
  - by destruct (defined (get r b)).
Qed.

Lemma withAliases_get (r : JsObj) :
  get (WarehouseMap.withAliases r) "x"
  = (if defined (get r "x") then get r "x" else get r "current_x")
  /\ get (WarehouseMap.withAliases r) "y"
     = (if defined (get r "y") then get r "y" else get r "current_y")
  /\ get (WarehouseMap.withAliases r) "yaw"
     = (if defined (get r "yaw") then get r "yaw" else get r "current_yaw").
Proof.
  unfold WarehouseMap.withAliases, WarehouseMap.polledPosition. repeat split.
  - rewrite !get_insert_ne by discriminate. apply get_insert_eq.
  - rewrite get_insert_ne by discriminate. apply get_insert_eq.
  - apply get_insert_eq.
Qed.

Lemma withAliases_idem (r : JsObj) :
  WarehouseMap.withAliases (WarehouseMap.withAliases r) = WarehouseMap.withAliases r.
Proof.
  destruct (withAliases_get r) as (Hx & Hy & Hw).
  unfold WarehouseMap.withAliases at 1. unfold WarehouseMap.polledPosition.
  rewrite Hx, Hy, Hw.
  rewrite !(polledPosition_other r r) by (apply (bool_decide_unpack _); vm_compute; reflexivity).
  rewrite (alias_stable r "x" "current_x"), (alias_stable r "y" "current_y"),
    (alias_stable r "yaw" "current_yaw").
  unfold WarehouseMap.withAliases, WarehouseMap.polledPosition.
  apply map_eq. intros k. rewrite !lookup_insert.
  repeat case_decide; congruence.
Qed.

End AliasFacts.

(** X27. The alias mapping of loaded records (robots and shelves of the
    map page, robots of the Robots page): x, y and yaw are the record's own
    when it has them and its [current_x], [current_y], [current_yaw]
    otherwise; every other property is kept; and mapping a mapped record
    again changes nothing. *)
Theorem withAliases_fills_position (r : JS.JsObj) :
  JS.get (WarehouseMap.withAliases r) "x"
  = (if JS.defined (JS.get r "x") then JS.get r "x" else JS.get r "current_x")
  /\ JS.get (WarehouseMap.withAliases r) "y"
     = (if JS.defined (JS.get r "y") then JS.get r "y" else JS.get r "current_y")
  /\ JS.get (WarehouseMap.withAliases r) "yaw"
     = (if JS.defined (JS.get r "yaw") then JS.get r "yaw" else JS.get r "current_yaw")
  /\ (forall k, k ∉ ["x"; "y"; "yaw"] -> JS.get (WarehouseMap.withAliases r) k = JS.get r k)
  /\ WarehouseMap.withAliases (WarehouseMap.withAliases r) = WarehouseMap.withAliases r.
Proof.
  destruct (withAliases_get r) as (Hx & Hy & Hw).
  repeat split; try done.
  - intros k Hk. by apply polledPosition_other.
  - apply withAliases_idem.
Qed.

Lemma withAliases_fills_position_witness :
  JS.get (WarehouseMap.withAliases Scenario.S1_row) "storage_x" = JS.VNum 100.
Proof.
  destruct (withAliases_fills_position Scenario.S1_row) as (_ & _ & _ & Hother & _).
  rewrite Hother; [reflexivity|].
  apply (bool_decide_unpack _). vm_compute. reflexivity.
Defined.
